(** * qubes-firewall: the rule pipeline of [qubesagent/firewall.py]

    A shallow embedding of the per-address rule pipeline: the config reader
    ([read_rules]), the fail-safe driver ([handle_addr]) and the two
    backends ([IptablesWorker], [NftablesWorker]) with their rule-program
    assembly ([prepare_rules]) and installation ([apply_rules_family]).

    Python byte strings are [string]; a rule (a [dict] from option name to
    value) is a [gmap string string]; a Python [set] of strings is a
    [gset string] whose iteration order is supplied by the environment;
    exceptions are an error monad, and the worker object is threaded as an
    explicit state that survives a raised exception, as attributes of
    [self] do. *)

From stdpp Require Import base option list strings gmap sorting.
From Stdlib Require Import Ascii Lia.

(* ===================================================================== *)
(** ** Python string primitives used by the service *)
(* ===================================================================== *)

Module Py.

(** The line feed, ["\n"]. *)
Definition LF : ascii := "010"%char.
Definition nl : string := String LF "".

(** [s.replace(old, new)] for one-character [old] and [new]. *)
Fixpoint replace (old new : ascii) (s : string) : string :=
  match s with
  | "" => ""
  | String c s' =>
      String (if Ascii.eqb c old then new else c) (replace old new s')
  end.

(** [s.split(sep)] for a one-character separator: never empty. *)
Fixpoint split (sep : ascii) (s : string) : list string :=
  match s with
  | "" => [""]
  | String c s' =>
      if Ascii.eqb c sep then "" :: split sep s'
      else match split sep s' with
           | w :: ws => String c w :: ws
           | [] => [String c ""]
           end
  end.

(** [s.count(c)]. *)
Fixpoint count (c : ascii) (s : string) : nat :=
  match s with
  | "" => 0
  | String d s' => (if Ascii.eqb d c then 1 else 0) + count c s'
  end.

(** [sep.join(l)]. *)
Fixpoint join (sep : string) (l : list string) : string :=
  match l with
  | [] => ""
  | [x] => x
  | x :: l' => x +:+ sep +:+ join sep l'
  end.

(** Concatenation of the pieces appended to a string accumulator. *)
Fixpoint cat (l : list string) : string :=
  match l with
  | [] => ""
  | x :: l' => x +:+ cat l'
  end.

Fixpoint drop (n : nat) (s : string) : string :=
  match n, s with
  | O, _ => s
  | S _, "" => ""
  | S n', String _ s' => drop n' s'
  end.

(** [s[-n:]] for [n > 0]: the last [n] characters, the whole string
    when it is shorter. *)
Definition last_n (n : nat) (s : string) : string :=
  drop (String.length s - n) s.

Definition upper_char (c : ascii) : ascii :=
  let n := nat_of_ascii c in
  if ((97 <=? n) && (n <=? 122))%nat then ascii_of_nat (n - 32) else c.

(** [s.upper()] on a byte string in the C locale. *)
Fixpoint upper (s : string) : string :=
  match s with
  | "" => ""
  | String c s' => String (upper_char c) (upper s')
  end.

Definition is_digit_char (c : ascii) : bool :=
  let n := nat_of_ascii c in ((48 <=? n) && (n <=? 57))%nat.

Fixpoint all_digits (s : string) : bool :=
  match s with
  | "" => true
  | String c s' => is_digit_char c && all_digits s'
  end.

(** [s.isdigit()] on a byte string: non-empty and every byte in 0-9. *)
Definition isdigit (s : string) : bool :=
  match s with "" => false | _ => all_digits s end.

Fixpoint startswith (p s : string) : bool :=
  match p, s with
  | "", _ => true
  | String a p', String b s' => Ascii.eqb a b && startswith p' s'
  | _, "" => false
  end.

(** [sub in s]. *)
Fixpoint contains (sub s : string) : bool :=
  startswith sub s ||
  match s with
  | "" => false
  | String _ s' => contains sub s'
  end.

(** [sorted(l)] on byte strings: the order is bytewise lexicographic. *)
Definition sorted (l : list string) : list string :=
  merge_sort String.le l.

End Py.

(* ===================================================================== *)
(** ** Exceptions and the two monads *)
(* ===================================================================== *)

(** The exceptions that can leave the modelled methods.  The first two are
    the service's own; the others are raised by the interpreter or by
    [subprocess.check_call] and are caught nowhere in the rule pipeline. *)
Inductive exn : Set :=
| RuleParseError
| RuleApplyError
| ValueError
| KeyError
| IndexError
| CalledProcessError.

#[global] Instance exn_eq_dec : EqDecision exn.
Proof. solve_decision. Defined.

(** Result of a computation without side effect. *)
Inductive result (A : Type) : Type :=
| Ok (a : A)
| Raise (e : exn).
Arguments Ok {A} a.
Arguments Raise {A} e.

Definition rbind {A B} (m : result A) (k : A → result B) : result B :=
  match m with
  | Ok a => k a
  | Raise e => Raise e
  end.

Declare Scope py_scope.
Delimit Scope py_scope with py.
Notation "'let!' x := m 'in' k" := (rbind m (fun x => k))
  (at level 10, x name, m at level 100, k at level 200) : py_scope.
Open Scope py_scope.

(** A [for] loop that collects what each iteration appends and stops at the
    first exception. *)
Fixpoint for_each {A B} (f : A → result (list B)) (l : list A)
  : result (list B) :=
  match l with
  | [] => Ok []
  | x :: l' =>
      let! ys := f x in
      let! zs := for_each f l' in
      Ok (ys ++ zs)
  end.

(** A method of a worker: the state reached is returned also when the
    method raises. *)
Definition M (S A : Type) : Type := S → result A * S.

Definition ret {S A} (a : A) : M S A := fun s => (Ok a, s).
Definition raise {S A} (e : exn) : M S A := fun s => (Raise e, s).
Definition bind {S A B} (m : M S A) (k : A → M S B) : M S B :=
  fun s => match m s with
           | (Ok a, s') => k a s'
           | (Raise e, s') => (Raise e, s')
           end.
(** [try: m except e: h] *)
Definition try_except {S A} (m : M S A) (e : exn) (h : M S A) : M S A :=
  fun s => match m s with
           | (Raise e', s') => if decide (e' = e) then h s' else (Raise e', s')
           | r => r
           end.
Definition lift {S A} (r : result A) : M S A := fun s => (r, s).

Notation "'do!' x := m 'in' k" := (bind m (fun x => k))
  (at level 10, x name, m at level 100, k at level 200) : py_scope.
Notation "'run!' m 'in' k" := (bind m (fun _ => k))
  (at level 10, m at level 100, k at level 200) : py_scope.

(* ===================================================================== *)
(** ** Data model *)
(* ===================================================================== *)

(** Address family, the [4] or [6] passed around by the workers. *)
Inductive family : Set := F4 | F6.

#[global] Instance family_eq_dec : EqDecision family.
Proof. solve_decision. Defined.

(** The dictionaries [{4: ..., 6: ...}] kept by the workers. *)
Record per_family (A : Type) : Type := PerFamily { fam4 : A; fam6 : A }.
Arguments PerFamily {A} fam4 fam6.
Arguments fam4 {A} p.
Arguments fam6 {A} p.

Definition pf_get {A} (f : family) (p : per_family A) : A :=
  match f with F4 => fam4 p | F6 => fam6 p end.
Definition pf_set {A} (f : family) (a : A) (p : per_family A) : per_family A :=
  match f with
  | F4 => PerFamily a (fam6 p)
  | F6 => PerFamily (fam4 p) a
  end.

(** A rule: option name to value. *)
Abbreviation rule := (gmap string string).

(** [FirewallWorker.is_ip6] *)
Definition is_ip6 (addr : string) : bool :=
  negb (Py.count ":" addr =? 0)%nat.

Definition family_of (addr : string) : family :=
  if is_ip6 addr then F6 else F4.

(* ===================================================================== *)
(** ** The environment of the service *)
(* ===================================================================== *)

(** What the service reads from outside and does not compute itself.
    - [multiread p]: the items of the dictionary [qdb.multiread(p)], in
      the order the dictionary iterates them;
    - [dns_addresses f]: the addresses yielded by [dns_addresses(f)]
      from the resolver configuration, in file order;
    - [getaddrinfo f h]: [item[4][0]] of every entry returned by
      [socket.getaddrinfo(h, None, AF)], or [None] for [gaierror];
    - [set_iter s]: the order in which the interpreter iterates the set
      [s] (the language leaves it open);
    - [restore_accepts f text]: whether [ip(6)tables-restore -n] exits
      with status 0 on [text];
    - [nft_accepts text]: whether [nft -f /dev/stdin] does. *)
Record env : Type := Env {
  multiread : string → list (string * string);
  dns_addresses : family → list string;
  getaddrinfo : family → string → option (list string);
  set_iter : gset string → list string;
  restore_accepts : family → string → bool;
  nft_accepts : string → bool;
}.

(** An iteration order is admissible when it lists the members of the
    set, each once. *)
Definition set_iter_ok (E : env) : Prop :=
  ∀ s : gset string, set_iter E s ≡ₚ elements s.

(* ===================================================================== *)
(** ** Config reader: [FirewallWorker.read_rules] *)
(* ===================================================================== *)

(** [d[k]] on a dictionary. *)
Definition getitem (d : rule) (k : string) : result string :=
  match d !! k with
  | Some v => Ok v
  | None => Raise KeyError
  end.

(** [k.split('/')[3]] *)
Definition leaf_of (k : string) : result string :=
  match Py.split "/" k !! 3 with
  | Some leaf => Ok leaf
  | None => Raise IndexError
  end.

(** [dict((k.split('/')[3], v) for k, v in entries.items())]: a later
    item replaces an earlier one with the same leaf. *)
Fixpoint drop_full_path (acc : gmap string string)
    (items : list (string * string)) : result (gmap string string) :=
  match items with
  | [] => Ok acc
  | (k, v) :: items' =>
      let! leaf := leaf_of k in
      drop_full_path (<[leaf := v]> acc) items'
  end.

(** [dict(elem.split('=') for elem in rule.split(' '))]: every element
    must split into exactly a key and a value, [dict] raises [ValueError]
    otherwise. *)
Fixpoint dict_of_pairs (acc : rule) (elems : list (list string))
  : result rule :=
  match elems with
  | [] => Ok acc
  | [k; v] :: elems' => dict_of_pairs (<[k := v]> acc) elems'
  | _ :: _ => Raise ValueError
  end.

Definition parse_rule (value : string) : result rule :=
  dict_of_pairs ∅ (Py.split "=" <$> Py.split " " value).

(** Order of the tuples [(ruleno, rule)] under [sorted]. *)
Definition item_le (a b : string * string) : Prop :=
  a.1 ≠ b.1 ∧ String.le a.1 b.1 ∨ a.1 = b.1 ∧ String.le a.2 b.2.

#[global] Instance item_le_dec : RelDecision item_le.
Proof. intros a b. unfold item_le. apply _. Defined.

Definition sorted_items (entries : gmap string string)
  : list (string * string) :=
  merge_sort item_le (map_to_list entries).

(** The body of the loop [for ruleno, rule in sorted(entries.items())]. *)
Fixpoint read_loop (items : list (string * string)) : result (list rule) :=
  match items with
  | [] => Ok []
  | (ruleno, value) :: items' =>
      if negb (String.length ruleno =? 4)%nat || negb (Py.isdigit ruleno)
      then Raise RuleParseError
      else
        let! rule_dict := parse_rule value in
        if bool_decide (rule_dict !! "action" = None)
        then Raise RuleParseError
        else
          let! rules := read_loop items' in
          Ok (rule_dict :: rules)
  end.

(** [read_rules] after the [multiread] call. *)
Definition read_rules_of (items : list (string * string))
  : result (list rule) :=
  let! entries := drop_full_path ∅ items in
  match entries !! "policy" with
  | None => Raise RuleParseError
  | Some policy =>
      let entries := delete "policy" entries in
      let! rules := read_loop (sorted_items entries) in
      Ok (rules ++ [ {[ "action" := policy ]} ])
  end.

(** [FirewallWorker.read_rules] *)
Definition read_rules (E : env) (target : string) : result (list rule) :=
  read_rules_of (multiread E ("/qubes-firewall/" +:+ target +:+ "/")).

(* ===================================================================== *)
(** ** The base class: [FirewallWorker.handle_addr] *)
(* ===================================================================== *)

(** What the subclasses implement. *)
Class Backend (B : Type) : Type := {
  apply_rules : env → string → list rule → M B unit
}.

(** The three messages [handle_addr] hands to [log_error]. *)
Inductive log_entry : Type :=
| FailedToParse (addr : string)
| FailedToApply (addr : string)
| FailedToBlock (addr : string).

Record worker (B : Type) : Type := Worker {
  backend : B;
  errlog : list log_entry
}.
Arguments Worker {B} backend errlog.
Arguments backend {B} w.
Arguments errlog {B} w.

(** [log_error]: the message is logged; spawning the notification is
    taken to succeed. *)
Definition log_error {B} (msg : log_entry) : M (worker B) unit :=
  fun w => (Ok (), Worker (backend w) (errlog w ++ [msg])).

(** A method of the subclass run on the worker. *)
Definition on_backend {B A} (m : M B A) : M (worker B) A :=
  fun w => let '(r, b) := m (backend w) in (r, Worker b (errlog w)).

(** The list [[{'action': 'drop'}]] applied when an address fails. *)
Definition fallback_rules : list rule := [ {[ "action" := "drop" ]} ].

(** [FirewallWorker.handle_addr]: the handler of [RuleParseError]
    applies the fallback unguarded, the handler of [RuleApplyError]
    applies it under its own [try]; any other exception passes through. *)
Definition handle_addr {B} `{Backend B} (E : env) (addr : string)
  : M (worker B) unit :=
  fun w =>
    match (do! rules := lift (read_rules E addr) in
           on_backend (apply_rules E addr rules)) w with
    | (Raise RuleParseError, w1) =>
        (run! log_error (FailedToParse addr) in
         on_backend (apply_rules E addr fallback_rules)) w1
    | (Raise RuleApplyError, w1) =>
        (run! log_error (FailedToApply addr) in
         try_except (on_backend (apply_rules E addr fallback_rules))
           RuleApplyError (log_error (FailedToBlock addr))) w1
    | r => r
    end.

(** The watch loop of [main], over the events read before the watch
    read is interrupted: an event below the address level is skipped, any
    other is handled; nothing but the [OSError] of the interrupted read
    is caught around the loop, so what [handle_addr] raises ends the
    service. *)
Fixpoint watch_loop {B} `{Backend B} (E : env) (events : list string)
  : M (worker B) unit :=
  match events with
  | [] => ret ()
  | watch_path :: events' =>
      if (2 <? Py.count "/" watch_path)%nat then watch_loop E events'
      else
        match Py.split "/" watch_path !! 2 with
        | None => raise IndexError
        | Some source_addr =>
            run! handle_addr E source_addr in
            watch_loop E events'
        end
  end.

(* ===================================================================== *)
(** ** Rule translation shared by both backends *)
(* ===================================================================== *)

Definition supported_rule_opts : list string :=
  ["action"; "proto"; "dst4"; "dst6"; "dsthost"; "dstports";
   "specialtarget"; "icmptype"].

(** [set(rule.keys()).difference(set(self.supported_rule_opts))] *)
Definition unsupported_opts (r : rule) : gset string :=
  dom r ∖ list_to_set supported_rule_opts.

Definition has_key (r : rule) (k : string) : bool :=
  bool_decide (is_Some (r !! k)).

(** The three checks that open the loop body of both [prepare_rules]. *)
Definition check_rule (fam : family) (r : rule) : result unit :=
  if bool_decide (unsupported_opts r ≠ ∅) then Raise RuleParseError
  else if has_key r "dst4" && bool_decide (fam = F6) then Raise RuleParseError
  else if has_key r "dst6" && bool_decide (fam = F4) then Raise RuleParseError
  else Ok ().

Definition fullmask (fam : family) : string :=
  match fam with F6 => "/128" | F4 => "/32" end.

(** [list(addr + fullmask for addr in self.dns_addresses(family))] *)
Definition dns_list (E : env) (fam : family) : list string :=
  (fun addr => addr +:+ fullmask fam) <$> dns_addresses E fam.

(** [set(item[4][0] + fullmask for item in addrinfo)], with [gaierror]
    turned into [RuleParseError]. *)
Definition resolve (E : env) (fam : family) (host : string)
  : result (gset string) :=
  match getaddrinfo E fam host with
  | None => Raise RuleParseError
  | Some addrs => Ok (list_to_set ((fun a => a +:+ fullmask fam) <$> addrs))
  end.

(** A list or a set of strings, the two kinds of collection the legacy
    translation iterates. *)
Inductive pycoll : Type :=
| PyList (l : list string)
| PySet (s : gset string).

Definition py_iter (E : env) (c : pycoll) : list string :=
  match c with
  | PyList l => l
  | PySet s => set_iter E s
  end.

Definition py_set (c : pycoll) : gset string :=
  match c with
  | PyList l => list_to_set l
  | PySet s => s
  end.

(** [' <flag> {}'.format(v)] appended when [v is not None]. *)
Definition opt_arg (flag : string) (v : option string) : string :=
  match v with
  | Some x => flag +:+ x
  | None => ""
  end.

(** [addr.replace('.', '-').replace(':', '-')] *)
Definition dashed (addr : string) : string :=
  Py.replace ":" "-" (Py.replace "." "-" addr).

(* ===================================================================== *)
(** ** Legacy backend: [IptablesWorker] *)
(* ===================================================================== *)

Module Iptables.

(** [IptablesWorker.chain_for_addr] *)
Definition chain_for_addr (addr : string) : string :=
  "qbs-" +:+ Py.last_n 20 (dashed addr).

(** One [ipt_rule] of the emission loop. *)
Definition ipt_line (chain : string)
    (dsthost proto dstports icmptype : option string) (action : string)
  : string :=
  "-A " +:+ chain +:+ opt_arg " -d " dsthost +:+ opt_arg " -p " proto
  +:+ opt_arg " --dport " dstports +:+ opt_arg " --icmp-type " icmptype
  +:+ " -j " +:+ Py.upper action +:+ Py.nl.

(** [protos] after the [if 'proto' in rule] block. *)
Definition rule_protos (fam : family) (r : rule) : option pycoll :=
  match r !! "proto" with
  | Some p =>
      if bool_decide (p = "icmp") && bool_decide (fam = F6)
      then Some (PyList ["icmpv6"])
      else Some (PyList [p])
  | None => None
  end.

(** [dsthosts] after the [dst4] / [dst6] / [dsthost] chain. *)
Definition rule_dsthosts (E : env) (fam : family) (r : rule)
  : result (option pycoll) :=
  match r !! "dst4", r !! "dst6", r !! "dsthost" with
  | Some d, _, _ => Ok (Some (PyList [d]))
  | None, Some d, _ => Ok (Some (PyList [d]))
  | None, None, Some h =>
      let! addrs := resolve E fam h in Ok (Some (PySet addrs))
  | None, None, None => Ok None
  end.

(** [dstports] after the [if 'dstports' in rule] block. *)
Definition rule_dstports (r : rule) : option string :=
  Py.replace "-" ":" <$> r !! "dstports".

(** The block under [if rule.get('specialtarget', None) == 'dns'];
    [None] stands for [continue]. *)
Definition special_dns (dns : list string)
    (protos dsthosts : option pycoll) (dstports : option string)
  : option (option pycoll * option pycoll * option string) :=
  if bool_decide (dstports ≠ Some "53:53" ∧ dstports ≠ None) then None
  else if bool_decide (dns = []) then None
  else
    let protos' :=
      match protos with
      | Some p => PySet ({["tcp"; "udp"]} ∩ py_set p)
      | None => PySet {["tcp"; "udp"]}
      end in
    let dsthosts' :=
      match dsthosts with
      | Some d => PySet (list_to_set dns ∩ py_set d)
      | None => PyList dns
      end in
    Some (Some protos', Some dsthosts', Some "53:53").

(** [sorted(c)] after "make them iterable": [None] becomes [[None]]. *)
Definition iterable (E : env) (c : option pycoll) : list (option string) :=
  match c with
  | None => [None]
  | Some c => Some <$> Py.sorted (py_iter E c)
  end.

(** The two nested emission loops. *)
Definition emit (chain : string) (r : rule)
    (protos dsthosts : list (option string))
    (dstports icmptype : option string) : result (list string) :=
  for_each (fun proto =>
    for_each (fun dsthost =>
      let! action := getitem r "action" in
      Ok [ipt_line chain dsthost proto dstports icmptype action])
    dsthosts)
  protos.

(** One iteration of [for rule in rules]: the lines it appends. *)
Definition ipt_rule (E : env) (chain : string) (fam : family)
    (dns : list string) (r : rule) : result (list string) :=
  let! _ := check_rule fam r in
  let protos := rule_protos fam r in
  let! dsthosts := rule_dsthosts E fam r in
  let dstports := rule_dstports r in
  let icmptype := r !! "icmptype" in
  if bool_decide (r !! "specialtarget" = Some "dns") then
    match special_dns dns protos dsthosts dstports with
    | None => Ok []
    | Some (protos', dsthosts', dstports') =>
        emit chain r (iterable E protos') (iterable E dsthosts')
          dstports' icmptype
    end
  else
    emit chain r (iterable E protos) (iterable E dsthosts) dstports icmptype.

(** The rule lines of the program, in emission order. *)
Definition ipt_rules (E : env) (chain : string) (rules : list rule)
    (fam : family) : result (list string) :=
  for_each (ipt_rule E chain fam (dns_list E fam)) rules.

(** The text around the rule lines. *)
Definition ipt_text (lines : list string) : string :=
  "*filter" +:+ Py.nl +:+ Py.cat lines +:+ "COMMIT" +:+ Py.nl.

(** [IptablesWorker.prepare_rules] *)
Definition prepare_rules (E : env) (chain : string) (rules : list rule)
    (fam : family) : result string :=
  let! lines := ipt_rules E chain rules fam in
  Ok (ipt_text lines).

(** *** The packet filter as the legacy tools see it

    A table of one family maps a chain name to the entries of that chain,
    first to last.  An entry is kept as the text that created it: the
    arguments after the chain name for [ip(6)tables], the whole line for a
    line of a restore program. *)
Abbreviation table := (gmap string (list string)).

(** Attributes of the worker ([self.chains]) and the kernel tables. *)
Record state : Type := State {
  chains : per_family (gset string);
  kernel : per_family table
}.

(** Effect of [ip(6)tables <args>] on a table, [None] for a non-zero
    exit status: [-N] creates a chain that must not exist, [-F] empties
    an existing chain, [-I] and [-A] put an entry first or last in one,
    [-X] deletes an empty one. *)
Definition ipt_exec (args : list string) (t : table) : option table :=
  match args with
  | ["-N"; c] =>
      match t !! c with
      | None => Some (<[c := []]> t)
      | Some _ => None
      end
  | ["-F"; c] =>
      match t !! c with
      | Some _ => Some (<[c := []]> t)
      | None => None
      end
  | ["-X"; c] =>
      match t !! c with
      | Some [] => Some (delete c t)
      | _ => None
      end
  | "-I" :: c :: spec =>
      match t !! c with
      | Some entries => Some (<[c := Py.join " " spec :: entries]> t)
      | None => None
      end
  | "-A" :: c :: spec =>
      match t !! c with
      | Some entries => Some (<[c := entries ++ [Py.join " " spec]]> t)
      | None => None
      end
  | _ => None
  end.

(** [IptablesWorker.run_ipt]: [check_call] raises on a non-zero status. *)
Definition run_ipt (fam : family) (args : list string) : M state unit :=
  fun st =>
    match ipt_exec args (pf_get fam (kernel st)) with
    | Some t => (Ok (), State (chains st) (pf_set fam t (kernel st)))
    | None => (Raise CalledProcessError, st)
    end.

(** [run_ipt_restore(family, ['-n'])] followed by [p.communicate(text)]:
    the result is [p.returncode == 0].  The program is the text
    [ipt_text lines], all of whose lines address [chain]; when the tool
    accepts it the lines are appended to that chain, which must exist,
    and nothing else changes ([-n]); otherwise nothing changes at all. *)
Definition run_ipt_restore (E : env) (fam : family) (chain : string)
    (lines : list string) : M state bool :=
  fun st =>
    let t := pf_get fam (kernel st) in
    match t !! chain with
    | Some entries =>
        if restore_accepts E fam (ipt_text lines)
        then (Ok true,
              State (chains st)
                (pf_set fam (<[chain := entries ++ lines]> t) (kernel st)))
        else (Ok false, st)
    | None => (Ok false, st)
    end.

(** [IptablesWorker.create_chain] *)
Definition create_chain (addr chain : string) (fam : family)
  : M state unit :=
  run! run_ipt fam ["-N"; chain] in
  run! run_ipt fam ["-I"; "QBS-FORWARD"; "-s"; addr; "-j"; chain] in
  fun st =>
    (Ok (),
     State (pf_set fam ({[chain]} ∪ pf_get fam (chains st)) (chains st))
       (kernel st)).

(** [IptablesWorker.apply_rules_family]; the text handed to the restore
    tool, [prepare_rules(chain, rules, family)], is [ipt_text lines]. *)
Definition apply_rules_family (E : env) (source : string)
    (rules : list rule) (fam : family) : M state unit :=
  let chain := chain_for_addr source in
  run! (fun st =>
          if bool_decide (chain ∈ pf_get fam (chains st))
          then ret () st
          else create_chain source chain fam st) in
  do! lines := lift (ipt_rules E chain rules fam) in
  try_except
    (run! run_ipt fam ["-F"; chain] in
     do! ok := run_ipt_restore E fam chain lines in
     if ok then ret () else raise RuleApplyError)
    CalledProcessError
    (raise RuleApplyError).

(** [IptablesWorker.apply_rules] *)
Definition apply_rules (E : env) (source_addr : string) (rules : list rule)
  : M state unit :=
  if is_ip6 source_addr
  then apply_rules_family E source_addr rules F6
  else apply_rules_family E source_addr rules F4.

(** The chain the kernel holds for a source address. *)
Definition kernel_chain (st : state) (addr : string) : option (list string) :=
  pf_get (family_of addr) (kernel st) !! chain_for_addr addr.

End Iptables.

#[global] Instance iptables_backend : Backend Iptables.state :=
  {| apply_rules := Iptables.apply_rules |}.

(* ===================================================================== *)
(** ** Modern backend: [NftablesWorker] *)
(* ===================================================================== *)

Module Nftables.

(** [NftablesWorker.chain_for_addr] *)
Definition chain_for_addr (addr : string) : string :=
  "qbs-" +:+ dashed addr.

Definition ip_match (fam : family) : string :=
  match fam with F6 => "ip6" | F4 => "ip" end.

(** The fragment appended under [if 'proto' in rule]. *)
Definition sel_proto (fam : family) (r : rule) : string :=
  match r !! "proto" with
  | Some p =>
      match fam with
      | F4 => " ip protocol " +:+ p
      | F6 =>
          " ip6 nexthdr " +:+ (if bool_decide (p = "icmp") then "icmpv6" else p)
      end
  | None => ""
  end.

(** [' {} daddr {{ {} }}'.format(ip_match, ', '.join(addrs))] *)
Definition daddr_set (fam : family) (addrs : list string) : string :=
  " " +:+ ip_match fam +:+ " daddr { " +:+ Py.join ", " addrs +:+ " }".

(** The fragment appended by the [dst4] / [dst6] / [dsthost] chain. *)
Definition sel_dst (E : env) (fam : family) (r : rule) : result string :=
  match r !! "dst4", r !! "dst6", r !! "dsthost" with
  | Some d, _, _ => Ok (" ip daddr " +:+ d)
  | None, Some d, _ => Ok (" ip6 daddr " +:+ d)
  | None, None, Some h =>
      let! addrs := resolve E fam h in
      Ok (daddr_set fam (set_iter E addrs))
  | None, None, None => Ok ""
  end.

(** [dstports.split('-')[0]] when [len(set(dstports.split('-'))) == 1]. *)
Definition collapse (dstports : string) : string :=
  match Py.split "-" dstports with
  | p :: ps => if bool_decide (Forall (eq p) ps) then p else dstports
  | [] => dstports
  end.

(** [dstports] after the [if 'dstports' in rule] block. *)
Definition rule_dstports (r : rule) : option string :=
  collapse <$> r !! "dstports".

(** The block under [if rule.get('specialtarget', None) == 'dns']: the
    fragment it appends and the new [dstports]; [None] stands for
    [continue]. *)
Definition special_dns (fam : family) (dns : list string)
    (dstports : option string) : option (string * option string) :=
  if bool_decide (dstports ≠ Some "53" ∧ dstports ≠ None) then None
  else if bool_decide (dns = []) then None
  else Some (daddr_set fam dns, Some "53").

(** The fragment appended under [if 'icmptype' in rule]. *)
Definition sel_icmptype (fam : family) (r : rule) : string :=
  match r !! "icmptype" with
  | Some t =>
      match fam with
      | F4 => " icmp type " +:+ t
      | F6 => " icmpv6 type " +:+ t
      end
  | None => ""
  end.

(** "now duplicate rules for tcp/udp if needed". *)
Definition expand_ports (r : rule) (nft_rule : string)
    (dstports : option string) : result (list string) :=
  match dstports with
  | Some ports =>
      match r !! "proto" with
      | None =>
          let! action := getitem r "action" in
          Ok [nft_rule +:+ " tcp dport " +:+ ports +:+ " " +:+ action;
              nft_rule +:+ " udp dport " +:+ ports +:+ " " +:+ action]
      | Some proto =>
          let! action := getitem r "action" in
          Ok [nft_rule +:+ " " +:+ proto +:+ " dport " +:+ ports
              +:+ " " +:+ action]
      end
  | None =>
      let! action := getitem r "action" in
      Ok [nft_rule +:+ " " +:+ action]
  end.

(** One iteration of [for rule in rules]: what it appends to
    [nft_rules]. *)
Definition nft_rule (E : env) (fam : family) (dns : list string) (r : rule)
  : result (list string) :=
  let! _ := check_rule fam r in
  let! dst := sel_dst E fam r in
  let nft_rule := sel_proto fam r +:+ dst in
  let dstports := rule_dstports r in
  if bool_decide (r !! "specialtarget" = Some "dns") then
    match special_dns fam dns dstports with
    | None => Ok []
    | Some (daddr, dstports') =>
        expand_ports r (nft_rule +:+ daddr +:+ sel_icmptype fam r) dstports'
    end
  else
    expand_ports r (nft_rule +:+ sel_icmptype fam r) dstports.

(** The list [nft_rules] when the loop ends. *)
Definition nft_rules (E : env) (rules : list rule) (fam : family)
  : result (list string) :=
  for_each (nft_rule E fam (dns_list E fam)) rules.

(** The text returned by [prepare_rules]. *)
Definition nft_text (chain : string) (fam : family) (rules : list string)
  : string :=
  "flush chain " +:+ ip_match fam +:+ " qubes-firewall " +:+ chain +:+ Py.nl
  +:+ "table " +:+ ip_match fam +:+ " qubes-firewall {" +:+ Py.nl
  +:+ "  chain " +:+ chain +:+ " {" +:+ Py.nl
  +:+ "   " +:+ Py.join (Py.nl +:+ "   ") rules +:+ Py.nl
  +:+ "  }" +:+ Py.nl
  +:+ "}" +:+ Py.nl.

(** [NftablesWorker.prepare_rules] *)
Definition prepare_rules (E : env) (chain : string) (rules : list rule)
    (fam : family) : result string :=
  let! lines := nft_rules E rules fam in
  Ok (nft_text chain fam lines).

(** The text built by [create_chain]. *)
Definition create_chain_text (addr chain : string) (fam : family) : string :=
  "table " +:+ ip_match fam +:+ " qubes-firewall {" +:+ Py.nl
  +:+ "  chain " +:+ chain +:+ " {" +:+ Py.nl
  +:+ "  }" +:+ Py.nl
  +:+ "  chain forward {" +:+ Py.nl
  +:+ "    " +:+ ip_match fam +:+ " saddr " +:+ addr +:+ " jump " +:+ chain
  +:+ Py.nl
  +:+ "  }" +:+ Py.nl
  +:+ "}" +:+ Py.nl.

(** *** The [qubes-firewall] tables as [nft] sees them *)

Abbreviation table := (gmap string (list string)).

Record state : Type := State {
  chains : per_family (gset string);
  kernel : per_family table
}.

(** The two statements the service writes: a [table { chain c { ... } }]
    block, which creates the chain when it is missing and appends the
    rules it lists, and [flush chain], which needs the chain to exist. *)
Inductive nft_cmd : Type :=
| ChainBlock (fam : family) (chain : string) (rules : list string)
| FlushChain (fam : family) (chain : string).

Definition nft_exec (k : per_family table) (c : nft_cmd)
  : option (per_family table) :=
  match c with
  | ChainBlock fam chain rules =>
      let t := pf_get fam k in
      Some (pf_set fam (<[chain := default [] (t !! chain) ++ rules]> t) k)
  | FlushChain fam chain =>
      let t := pf_get fam k in
      match t !! chain with
      | Some _ => Some (pf_set fam (<[chain := []]> t) k)
      | None => None
      end
  end.

Fixpoint nft_exec_all (k : per_family table) (cs : list nft_cmd)
  : option (per_family table) :=
  match cs with
  | [] => Some k
  | c :: cs' =>
      match nft_exec k c with
      | Some k' => nft_exec_all k' cs'
      | None => None
      end
  end.

(** [NftablesWorker.run_nft]: [text] is the input streamed to the tool,
    [cmds] the statements it spells; the input is one transaction, so a
    rejected or failing input changes nothing. *)
Definition run_nft (E : env) (text : string) (cmds : list nft_cmd)
  : M state unit :=
  fun st =>
    if nft_accepts E text then
      match nft_exec_all (kernel st) cmds with
      | Some k => (Ok (), State (chains st) k)
      | None => (Raise RuleApplyError, st)
      end
    else (Raise RuleApplyError, st).

(** [NftablesWorker.create_chain] *)
Definition create_chain (E : env) (addr chain : string) (fam : family)
  : M state unit :=
  run! run_nft E (create_chain_text addr chain fam)
         [ChainBlock fam chain [];
          ChainBlock fam "forward"
            [ip_match fam +:+ " saddr " +:+ addr +:+ " jump " +:+ chain]] in
  fun st =>
    (Ok (),
     State (pf_set fam ({[chain]} ∪ pf_get fam (chains st)) (chains st))
       (kernel st)).

(** [NftablesWorker.apply_rules_family]; the text handed to [nft],
    [prepare_rules(chain, rules, family)], is [nft_text chain fam lines],
    which spells a flush of the chain and a chain block with the rules. *)
Definition apply_rules_family (E : env) (source : string)
    (rules : list rule) (fam : family) : M state unit :=
  let chain := chain_for_addr source in
  run! (fun st =>
          if bool_decide (chain ∈ pf_get fam (chains st))
          then ret () st
          else create_chain E source chain fam st) in
  do! lines := lift (nft_rules E rules fam) in
  run_nft E (nft_text chain fam lines)
    [FlushChain fam chain; ChainBlock fam chain lines].

(** [NftablesWorker.apply_rules] *)
Definition apply_rules (E : env) (source_addr : string) (rules : list rule)
  : M state unit :=
  if is_ip6 source_addr
  then apply_rules_family E source_addr rules F6
  else apply_rules_family E source_addr rules F4.

(** The chain the kernel holds for a source address. *)
Definition kernel_chain (st : state) (addr : string) : option (list string) :=
  pf_get (family_of addr) (kernel st) !! chain_for_addr addr.

End Nftables.

#[global] Instance nftables_backend : Backend Nftables.state :=
  {| apply_rules := Nftables.apply_rules |}.

(* ===================================================================== *)
(** ** Scenarios *)
(* ===================================================================== *)

(** An environment whose tools accept every program and whose sets are
    iterated in the order of [elements]. *)
Definition plain_env (store : list (string * string))
    (dns4 : list string) (hosts : string → option (list string)) : env :=
  {| multiread := fun _ => store;
     dns_addresses := fun fam => match fam with F4 => dns4 | F6 => [] end;
     getaddrinfo := fun _ => hosts;
     set_iter := elements;
     restore_accepts := fun _ _ => true;
     nft_accepts := fun _ => true |}.

(** The legacy worker after [init]: no per-address chain, and
    [QBS-FORWARD] holding the default [DROP]. *)
Definition ipt_initial : Iptables.state :=
  Iptables.State (PerFamily ∅ ∅)
    (PerFamily {[ "QBS-FORWARD" := ["-j DROP"] ]}
               {[ "QBS-FORWARD" := ["-j DROP"] ]}).

(** The modern worker after [init]: the [forward] chain of both tables
    with its accept shortcut. *)
Definition nft_initial : Nftables.state :=
  Nftables.State (PerFamily ∅ ∅)
    (PerFamily {[ "forward" := ["ct state established,related accept"] ]}
               {[ "forward" := ["ct state established,related accept"] ]}).

(** Scenario 1: [policy=drop] and one rule accepting TCP port 443. *)
Definition scenario1_store : list (string * string) :=
  [("/qubes-firewall/10.137.0.5/policy", "drop");
   ("/qubes-firewall/10.137.0.5/0000",
    "action=accept proto=tcp dstports=443")].

Definition scenario1_env : env :=
  plain_env scenario1_store [] (fun _ => None).

(** What [read_rules] returns in scenario 1. *)
Definition scenario1_rules : list rule :=
  [ {[ "action" := "accept"; "proto" := "tcp"; "dstports" := "443" ]};
    {[ "action" := "drop" ]} ].

(** Scenario 1 with the port written as a range. *)
Definition scenario1_range_rules : list rule :=
  [ {[ "action" := "accept"; "proto" := "tcp"; "dstports" := "443-443" ]};
    {[ "action" := "drop" ]} ].

(** Two IPv6 source addresses that differ in their first two characters
    only. *)
Definition collide_a : string := "fd09:24ef:4179:0000::3".
Definition collide_b : string := "ab09:24ef:4179:0000::3".

(** A store whose rule [0000] has a token without [=]. *)
Definition bad_token_store : list (string * string) :=
  [("/qubes-firewall/10.137.0.5/policy", "drop");
   ("/qubes-firewall/10.137.0.5/0000", "action=accept proto")].

(** A store without [policy], read while the restore tool rejects every
    program. *)
Definition no_policy_store : list (string * string) :=
  [("/qubes-firewall/10.137.0.5/0000", "action=accept")].

Definition rejecting_env : env :=
  {| multiread := fun _ => no_policy_store;
     dns_addresses := fun _ => [];
     getaddrinfo := fun _ _ => None;
     set_iter := elements;
     restore_accepts := fun _ _ => false;
     nft_accepts := fun _ => false |}.

(** The same store read while every tool accepts its input. *)
Definition bad_token_env : env :=
  plain_env bad_token_store [] (fun _ => None).

(** An environment with two IPv4 nameservers. *)
Definition dns_env : env :=
  plain_env [] ["1.1.1.1"; "8.8.8.8"] (fun _ => None).

(** Scenario 6: a rule with a port range and no protocol. *)
Definition scenario6_rule : rule :=
  {[ "action" := "accept"; "dstports" := "8000-8000" ]}.

(** A rule with a proper port range and a protocol, and one with a
    destination and no port. *)
Definition range_rule : rule :=
  {[ "action" := "drop"; "proto" := "tcp"; "dstports" := "80-90" ]}.

Definition dst4_rule : rule :=
  {[ "action" := "accept"; "dst4" := "192.0.2.0/24" ]}.

(** A rule that only names the DNS target. *)
Definition dns_rule : rule :=
  {[ "action" := "accept"; "specialtarget" := "dns" ]}.

(** The protocols of a DNS rule as the specification words them: the
    rule's protocol intersected with TCP and UDP, both when it has
    none. *)
Definition dns_protos_spec (r : rule) : gset string :=
  match r !! "proto" with
  | Some p => {["tcp"; "udp"]} ∩ {[p]}
  | None => {["tcp"; "udp"]}
  end.

(** The destinations of a DNS rule as the specification words them, in
    emission order: the rule's destinations intersected with the
    nameservers, the nameservers when it has none. *)
Definition dns_dsthosts_spec (dns : list string) (dsthosts : option pycoll)
  : list string :=
  match dsthosts with
  | Some d => Py.sorted (elements (list_to_set dns ∩ py_set d))
  | None => Py.sorted dns
  end.

(** A host that resolves to two addresses, and a rule list that names
    it. *)
Definition two_hosts_env : env :=
  plain_env [] [] (fun _ => Some ["1.1.1.1"; "8.8.8.8"]).

Definition dsthost_rules : list rule :=
  [ {[ "action" := "accept"; "dsthost" := "example.org" ]};
    {[ "action" := "drop" ]} ].

(** The same resolver answers and the same interpreter in a run where
    the store holds scenario 1 and the tools reject every input. *)
Definition two_hosts_offline_env : env :=
  {| multiread := fun _ => scenario1_store;
     dns_addresses := dns_addresses two_hosts_env;
     getaddrinfo := getaddrinfo two_hosts_env;
     set_iter := set_iter two_hosts_env;
     restore_accepts := fun _ _ => false;
     nft_accepts := fun _ => false |}.

(** The nameservers of [dns_env] listed the other way round. *)
Definition dns_env_swapped : env :=
  plain_env [] ["8.8.8.8"; "1.1.1.1"] (fun _ => None).

(** Scenario 5: a leaf that is not a four-digit identifier. *)
Definition scenario5_env : env :=
  plain_env [("/qubes-firewall/10.137.0.5/policy", "accept");
             ("/qubes-firewall/10.137.0.5/abcd", "action=accept")]
    [] (fun _ => None).

(* ===================================================================== *)
(** ** The rest of the service *)
(* ===================================================================== *)

(** *** [FirewallWorker.list_targets] *)

(** [t.split('/')[2]] *)
Definition target_of (t : string) : result (list string) :=
  match Py.split "/" t !! 2 with
  | Some target => Ok [target]
  | None => Raise IndexError
  end.

(** [set(t.split('/')[2] for t in self.qdb.list('/qubes-firewall/'))],
    on the list of paths returned by [qdb.list]. *)
Definition list_targets (paths : list string) : result (gset string) :=
  let! targets := for_each target_of paths in
  Ok (list_to_set targets).

(** *** [FirewallWorker.dns_addresses] *)

Module Resolv.

(** The bytes removed by [str.strip()]: space, tab, line feed, vertical
    tab, form feed, carriage return. *)
Definition is_space (c : ascii) : bool :=
  let n := nat_of_ascii c in
  ((n =? 32) || ((9 <=? n) && (n <=? 13)))%nat.

Fixpoint lstrip (s : string) : string :=
  match s with
  | "" => ""
  | String c s' => if is_space c then lstrip s' else s
  end.

Fixpoint rstrip (s : string) : string :=
  match s with
  | "" => ""
  | String c s' =>
      match rstrip s' with
      | "" => if is_space c then "" else String c ""
      | r => String c r
      end
  end.

(** [line.strip()] *)
Definition strip (s : string) : string := rstrip (lstrip s).

(** [(family or d) == d] for the default argument [family=None]. *)
Definition family_or (fam : option family) (d : family) : bool :=
  match fam with
  | None => true
  | Some f => bool_decide (f = d)
  end.

(** [line.split(' ')[1]] *)
Definition second_field (line : string) : result (list string) :=
  match Py.split " " line !! 1 with
  | Some addr => Ok [addr]
  | None => Raise IndexError
  end.

(** One turn of [for line in resolv.readlines()]: what it yields. *)
Definition nameserver_of (fam : option family) (line : string)
  : result (list string) :=
  let line := strip line in
  if Py.startswith "nameserver" line then
    if (Py.count "." line =? 3)%nat && family_or fam F4
    then second_field line
    else if negb (Py.count ":" line =? 0)%nat && family_or fam F6
    then second_field line
    else Ok []
  else Ok [].

(** [list(dns_addresses(family))] on the lines of [/etc/resolv.conf] as
    [readlines()] returns them. *)
Definition dns_addresses (fam : option family) (lines : list string)
  : result (list string) :=
  for_each (nameserver_of fam) lines.

(** A line [nameserver <addr>] with its line end. *)
Definition ns_line (addr : string) : string :=
  "nameserver " +:+ addr +:+ Py.nl.

(** An address as a resolver configuration writes it: not empty, no
    white space inside. *)
Definition clean (addr : string) : Prop :=
  addr ≠ "" ∧ ∀ i c, String.get i addr = Some c → is_space c = false.

End Resolv.

(** *** [IptablesWorker.init] and [IptablesWorker.cleanup] *)

Module IptablesWorker.

Import Iptables.

(** How [init] ends: it returns, or [sys.exit(code)] ends the process. *)
Inductive outcome : Set :=
| Returned
| Exited (code : nat).

(** The four commands under [try] in [init]. *)
Definition init_commands : M state unit :=
  run! run_ipt F4 ["-F"; "QBS-FORWARD"] in
  run! run_ipt F4 ["-A"; "QBS-FORWARD"; "-j"; "DROP"] in
  run! run_ipt F6 ["-F"; "QBS-FORWARD"] in
  run_ipt F6 ["-A"; "QBS-FORWARD"; "-j"; "DROP"].

(** [IptablesWorker.init]: the outcome, the messages handed to
    [log_error], and the state.  [CalledProcessError] is the only thing
    [run_ipt] raises. *)
Definition init (st : state) : outcome * list string * state :=
  match init_commands st with
  | (Ok (), st') => (Returned, [], st')
  | (Raise _, st') =>
      (Exited 1, ["'QBS-FORWARD' chain not found, create it first"], st')
  end.

(** The inner loop of [cleanup], over the chains in iteration order. *)
Fixpoint cleanup_chains (fam : family) (cs : list string) : M state unit :=
  match cs with
  | [] => ret ()
  | chain :: cs' =>
      run! run_ipt fam ["-F"; chain] in
      run! run_ipt fam ["-X"; chain] in
      cleanup_chains fam cs'
  end.

(** One turn of [for family in (4, 6)]. *)
Definition cleanup_family (E : env) (fam : family) : M state unit :=
  run! run_ipt fam ["-F"; "QBS-FORWARD"] in
  fun st => cleanup_chains fam (set_iter E (pf_get fam (chains st))) st.

(** [IptablesWorker.cleanup] *)
Definition cleanup (E : env) : M state unit :=
  run! cleanup_family E F4 in
  cleanup_family E F6.

(** Every registered chain exists in the kernel table of its family,
    is named as [chain_for_addr] names chains, and [QBS-FORWARD]
    exists in both tables. *)
Definition consistent (st : state) : Prop :=
  ∀ fam,
    is_Some (pf_get fam (kernel st) !! "QBS-FORWARD")
    ∧ ∀ c, c ∈ pf_get fam (chains st) →
           is_Some (pf_get fam (kernel st) !! c)
           ∧ Py.startswith "qbs-" c = true.

End IptablesWorker.

(** *** Rules the translation rejects *)

(** A rule at which both [prepare_rules] raise [RuleParseError]: an
    option outside the supported ones, a destination of the other
    family, or a [dsthost] that is consulted and does not resolve. *)
Definition rejected (E : env) (fam : family) (r : rule) : Prop :=
  unsupported_opts r ≠ ∅
  ∨ is_Some (r !! "dst4") ∧ fam = F6
  ∨ is_Some (r !! "dst6") ∧ fam = F4
  ∨ r !! "dst4" = None ∧ r !! "dst6" = None
    ∧ ∃ h, r !! "dsthost" = Some h ∧ getaddrinfo E fam h = None.

(** The rule lists [read_rules] returns and [handle_addr] applies:
    every rule has its action. *)
Definition with_actions (rules : list rule) : Prop :=
  Forall (fun r => is_Some (r !! "action")) rules.

(** A resolver configuration with a comment, two IPv4 nameservers and an
    IPv6 one. *)
Definition sample_resolv_conf : list string :=
  ["# Generated" +:+ Py.nl;
   Resolv.ns_line "10.139.1.1";
   Resolv.ns_line "10.139.1.2";
   Resolv.ns_line "fd00::1"].

(* ===================================================================== *)
(** * Properties *)
(* ===================================================================== *)

(** ** Strings *)

Lemma append_cons (c : ascii) (a b : string) :
  String c a +:+ b = String c (a +:+ b).
Proof. reflexivity. Qed.

Lemma append_nil_l (b : string) : "" +:+ b = b.
Proof. reflexivity. Qed.

Lemma length_append (a b : string) :
  String.length (a +:+ b) = String.length a + String.length b.
Proof.
  induction a as [|c a IH]; [done|].
  rewrite append_cons. simpl. by rewrite IH.
Qed.

Lemma append_assoc (a b c : string) : (a +:+ b) +:+ c = a +:+ b +:+ c.
Proof.
  induction a as [|x a IH]; [done|].
  rewrite !append_cons. by rewrite IH.
Qed.

Lemma replace_length (old new : ascii) (s : string) :
  String.length (Py.replace old new s) = String.length s.
Proof. induction s as [|c s IH]; cbn; [done | by f_equal]. Qed.

Lemma replace_get (old new : ascii) (s : string) (i : nat) :
  String.get i (Py.replace old new s)
  = (fun c => if Ascii.eqb c old then new else c) <$> String.get i s.
Proof.
  revert i; induction s as [|c s IH]; intros [|i]; simpl; done.
Qed.

Lemma drop_length (n : nat) (s : string) :
  String.length (Py.drop n s) = String.length s - n.
Proof.
  revert s; induction n as [|n IH]; intros [|c s]; simpl; done.
Qed.

(** [drop] keeps a suffix. *)
Lemma drop_suffix (n : nat) (s : string) :
  ∃ pre, s = pre +:+ Py.drop n s.
Proof.
  revert s; induction n as [|n IH]; intros s.
  - by exists "".
  - destruct s as [|c s]; [by exists ""|].
    destruct (IH s) as [pre Hpre].
    exists (String c pre). rewrite append_cons. simpl. by rewrite <- Hpre.
Qed.

Lemma last_n_length (n : nat) (s : string) :
  String.length (Py.last_n n s) = n `min` String.length s.
Proof. unfold Py.last_n. rewrite drop_length. lia. Qed.

(** ** Chain names of the legacy backend *)

Lemma dashed_get (addr : string) (i : nat) :
  String.get i (dashed addr)
  = (fun c => if bool_decide (c = "."%char ∨ c = ":"%char)
              then "-"%char else c) <$> String.get i addr.
Proof.
  unfold dashed. rewrite !replace_get.
  destruct (String.get i addr) as [c|]; simpl; [|done].
  f_equal.
  destruct (Ascii.eqb_spec c ".") as [->|H1]; [done|].
  destruct (Ascii.eqb_spec c ":") as [->|H2]; [done|].
  rewrite bool_decide_eq_false_2; [done | tauto].
Qed.

(** C7, as the code has it: the name is ["qbs-"] followed by the last 20
    characters of the address with ['.'] and [':'] replaced by ['-'];
    only the address part is cut, so the name has four characters more
    than that part and never exceeds 24 characters. *)
Theorem chain_for_addr_shape (addr : string) :
  ∃ body pre : string,
    Iptables.chain_for_addr addr = "qbs-" +:+ body
    ∧ dashed addr = pre +:+ body
    ∧ String.length body = 20 `min` String.length addr
    ∧ String.length (Iptables.chain_for_addr addr)
      = 4 + 20 `min` String.length addr
    ∧ String.length (Iptables.chain_for_addr addr) ≤ 24
    ∧ (∀ i, String.get i (dashed addr)
            = (fun c => if bool_decide (c = "."%char ∨ c = ":"%char)
                        then "-"%char else c) <$> String.get i addr).
Proof.
  destruct (drop_suffix (String.length (dashed addr) - 20) (dashed addr))
    as [pre Hpre].
  exists (Py.last_n 20 (dashed addr)), pre.
  assert (String.length (Py.last_n 20 (dashed addr))
          = 20 `min` String.length addr) as Hlen.
  { rewrite last_n_length. unfold dashed. by rewrite !replace_length. }
  assert (String.length (Iptables.chain_for_addr addr)
          = 4 + 20 `min` String.length addr) as Htot.
  { unfold Iptables.chain_for_addr. rewrite length_append.
    fold (dashed addr). rewrite Hlen. done. }
  repeat split; try done.
  - rewrite Htot. lia.
  - apply dashed_get.
Qed.

(** C7, as the spec words it, fails: an IPv6 address of 22 characters
    gets a chain name of 24 characters. *)
Lemma chain_for_addr_longer_than_20 :
  ¬ (∀ addr : string, String.length (Iptables.chain_for_addr addr) ≤ 20).
Proof.
  intros H. specialize (H "fd09:24ef:4179:0000::3").
  vm_compute in H. lia.
Qed.

Example chain_for_addr_ipv4 :
  Iptables.chain_for_addr "10.137.0.1" = "qbs-10-137-0-1".
Proof. reflexivity. Qed.

Example chain_for_addr_ipv6 :
  Iptables.chain_for_addr "fd09:24ef:4179:0000::3"
  = "qbs-09-24ef-4179-0000--3".
Proof. reflexivity. Qed.

(** ** Loops and the two monads *)

Lemma pf_get_set {A} (f : family) (a : A) (p : per_family A) :
  pf_get f (pf_set f a p) = a.
Proof. by destruct f. Qed.

(** A loop that ends normally has run every iteration normally, and what
    it collected is what the iterations appended, in order. *)
Lemma for_each_ok {A B} (f : A → result (list B)) (l : list A)
    (out : list B) :
  for_each f l = Ok out ↔
  ∃ per : list (list B), Forall2 (fun x ys => f x = Ok ys) l per
                         ∧ out = concat per.
Proof.
  revert out; induction l as [|x l IH]; intros out; simpl.
  - split.
    + intros [= <-]. exists []. split; [constructor | done].
    + intros (per & HF & ->). by inversion HF.
  - split.
    + destruct (f x) as [ys|e] eqn:Hx; simpl; [|done].
      destruct (for_each f l) as [zs|e] eqn:Hl; simpl; [|done].
      intros [= <-]. destruct (proj1 (IH zs) eq_refl) as (per & HF & ->).
      exists (ys :: per). split; [by constructor | done].
    + intros (per & HF & ->). inversion HF as [|? ys ? per' Hx HF']; subst.
      rewrite Hx. simpl.
      rewrite (proj2 (IH (concat per'))); [done | by exists per'].
Qed.

Lemma for_each_app {A B} (f : A → result (list B)) (l1 l2 : list A) :
  for_each f (l1 ++ l2)
  = (let! xs := for_each f l1 in
     let! ys := for_each f l2 in
     Ok (xs ++ ys)).
Proof.
  induction l1 as [|x l1 IH]; simpl.
  - by destruct (for_each f l2).
  - destruct (f x) as [a|e]; simpl; [|done].
    rewrite IH. destruct (for_each f l1) as [b|e]; simpl; [|done].
    destruct (for_each f l2) as [c|e]; simpl; [|done].
    by rewrite app_assoc.
Qed.

(** ** The config reader *)

(** The list returned by [read_rules] ends with the synthetic policy
    rule. *)
Lemma read_rules_of_tail (items : list (string * string)) (R : list rule) :
  read_rules_of items = Ok R →
  ∃ rules policy, R = rules ++ [ {[ "action" := policy ]} ].
Proof.
  unfold read_rules_of.
  destruct (drop_full_path ∅ items) as [entries|e]; simpl; [|done].
  destruct (entries !! "policy") as [policy|]; [|done].
  destruct (read_loop _) as [rules|e]; simpl; [|done].
  intros [= <-]. by exists rules, policy.
Qed.

(** ** The policy rule on both backends *)

Lemma unsupported_opts_action (v : string) :
  unsupported_opts {[ "action" := v ]} = ∅.
Proof. unfold unsupported_opts. rewrite dom_singleton_L. by vm_compute. Qed.

Lemma check_rule_action (fam : family) (v : string) :
  check_rule fam {[ "action" := v ]} = Ok ().
Proof.
  unfold check_rule. rewrite unsupported_opts_action.
  rewrite bool_decide_eq_false_2; [|intros H; by apply H].
  unfold has_key. by rewrite !lookup_singleton_ne by done.
Qed.

(** The synthetic rule [{'action': policy}] becomes the single line
    [-A <chain> -j <POLICY>]. *)
Lemma ipt_rule_policy (E : env) (chain : string) (fam : family)
    (dns : list string) (policy : string) :
  Iptables.ipt_rule E chain fam dns {[ "action" := policy ]}
  = Ok [Iptables.ipt_line chain None None None None policy].
Proof.
  unfold Iptables.ipt_rule. rewrite check_rule_action. simpl.
  unfold Iptables.rule_protos, Iptables.rule_dsthosts,
    Iptables.rule_dstports.
  rewrite !lookup_singleton_ne by done. simpl.
  unfold Iptables.emit. simpl. unfold getitem.
  by rewrite lookup_singleton_eq.
Qed.

(** The synthetic rule becomes the single statement [ <policy>]. *)
Lemma nft_rule_policy (E : env) (fam : family) (dns : list string)
    (policy : string) :
  Nftables.nft_rule E fam dns {[ "action" := policy ]}
  = Ok [" " +:+ policy].
Proof.
  unfold Nftables.nft_rule. rewrite check_rule_action. simpl.
  unfold Nftables.sel_dst, Nftables.sel_proto, Nftables.rule_dstports,
    Nftables.sel_icmptype.
  rewrite !lookup_singleton_ne by done. simpl.
  unfold getitem. by rewrite lookup_singleton_eq.
Qed.
(** ** Installation *)

(** A successful [apply_rules_family] of the legacy backend leaves in the
    chain exactly the lines of the program, whatever the chain held. *)
Lemma ipt_apply_rules_family_ok (E : env) (source : string)
    (rules : list rule) (fam : family) (st st' : Iptables.state) :
  Iptables.apply_rules_family E source rules fam st = (Ok (), st') →
  ∃ lines,
    Iptables.ipt_rules E (Iptables.chain_for_addr source) rules fam = Ok lines
    ∧ pf_get fam (Iptables.kernel st') !! Iptables.chain_for_addr source
      = Some lines.
Proof.
  unfold Iptables.apply_rules_family.
  set (chain := Iptables.chain_for_addr source).
  unfold bind at 1.
  destruct (if bool_decide _ then _ else _) as [[[]|e] st1]; [|done].
  unfold bind, lift.
  destruct (Iptables.ipt_rules E chain rules fam) as [lines|e]; [|done].
  unfold try_except, bind, Iptables.run_ipt, Iptables.run_ipt_restore; simpl.
  destruct (pf_get fam (Iptables.kernel st1) !! chain) as [old|] eqn:Hold;
    simpl; [|done].
  rewrite pf_get_set, lookup_insert_eq.
  destruct (restore_accepts E fam _); simpl; [|done].
  intros [= <-]. exists lines. split; [done|]. simpl.
  by rewrite pf_get_set, lookup_insert_eq.
Qed.

Lemma nft_apply_rules_family_ok (E : env) (source : string)
    (rules : list rule) (fam : family) (st st' : Nftables.state) :
  Nftables.apply_rules_family E source rules fam st = (Ok (), st') →
  ∃ lines,
    Nftables.nft_rules E rules fam = Ok lines
    ∧ pf_get fam (Nftables.kernel st') !! Nftables.chain_for_addr source
      = Some lines.
Proof.
  unfold Nftables.apply_rules_family.
  set (chain := Nftables.chain_for_addr source).
  unfold bind at 1.
  destruct (if bool_decide _ then _ else _) as [[[]|e] st1]; [|done].
  unfold bind, lift.
  destruct (Nftables.nft_rules E rules fam) as [lines|e]; [|done].
  unfold Nftables.run_nft; simpl.
  destruct (nft_accepts E _); [|done].
  destruct (pf_get fam (Nftables.kernel st1) !! chain) as [old|] eqn:Hold;
    simpl; [|done].
  rewrite pf_get_set, lookup_insert_eq. simpl.
  intros [= <-]. exists lines. split; [done|]. simpl.
  by rewrite pf_get_set, lookup_insert_eq.
Qed.

Lemma ipt_apply_rules_ok (E : env) (SA : string) (R : list rule)
    (st st' : Iptables.state) :
  Iptables.apply_rules E SA R st = (Ok (), st') →
  ∃ lines,
    Iptables.ipt_rules E (Iptables.chain_for_addr SA) R (family_of SA)
    = Ok lines
    ∧ Iptables.kernel_chain st' SA = Some lines.
Proof.
  unfold Iptables.apply_rules, Iptables.kernel_chain, family_of.
  destruct (is_ip6 SA); apply ipt_apply_rules_family_ok.
Qed.

Lemma nft_apply_rules_ok (E : env) (SA : string) (R : list rule)
    (st st' : Nftables.state) :
  Nftables.apply_rules E SA R st = (Ok (), st') →
  ∃ lines,
    Nftables.nft_rules E R (family_of SA) = Ok lines
    ∧ Nftables.kernel_chain st' SA = Some lines.
Proof.
  unfold Nftables.apply_rules, Nftables.kernel_chain, family_of.
  destruct (is_ip6 SA); apply nft_apply_rules_family_ok.
Qed.

Lemma ipt_chain_not_forward (addr : string) :
  Iptables.chain_for_addr addr ≠ "QBS-FORWARD".
Proof. unfold Iptables.chain_for_addr. discriminate. Qed.

(** With a program the restore tool accepts, and tables that agree with
    the registry, the legacy application goes through; a chain not yet
    registered is created, entered first in [QBS-FORWARD] and
    registered. *)
Lemma ipt_apply_rules_family_succeeds (E : env) (source : string)
    (rules : list rule) (fam : family) (st : Iptables.state)
    (lines : list string) :
  let chain := Iptables.chain_for_addr source in
  let t := pf_get fam (Iptables.kernel st) in
  Iptables.ipt_rules E chain rules fam = Ok lines →
  restore_accepts E fam (Iptables.ipt_text lines) = true →
  (chain ∈ pf_get fam (Iptables.chains st) → is_Some (t !! chain)) →
  (chain ∉ pf_get fam (Iptables.chains st) →
   t !! chain = None ∧ is_Some (t !! "QBS-FORWARD")) →
  ∃ st',
    Iptables.apply_rules_family E source rules fam st = (Ok (), st')
    ∧ chain ∈ pf_get fam (Iptables.chains st')
    ∧ (chain ∉ pf_get fam (Iptables.chains st) →
       pf_get fam (Iptables.kernel st') !! "QBS-FORWARD"
       = (fun old => Py.join " " ["-s"; source; "-j"; chain] :: old)
         <$> t !! "QBS-FORWARD").
Proof.
  intros chain t Hl Hacc Hreg Hnew.
  pose proof (ipt_chain_not_forward source) as Hne. fold chain in Hne.
  unfold Iptables.apply_rules_family. fold chain.
  unfold bind at 1. case_bool_decide as Hin.
  - destruct (Hreg Hin) as [old Hold]. unfold t in Hold.
    unfold ret, bind, lift. rewrite Hl.
    unfold try_except, bind, Iptables.run_ipt, Iptables.run_ipt_restore.
    simpl. rewrite Hold. simpl.
    rewrite pf_get_set, lookup_insert_eq, Hacc. simpl.
    eexists. split; [done|]. split; [done | tauto].
  - destruct (Hnew Hin) as [Hnone [fwd Hfwd]]. unfold t in Hnone, Hfwd.
    unfold Iptables.create_chain, bind, Iptables.run_ipt. simpl.
    rewrite Hnone. simpl. rewrite pf_get_set.
    rewrite lookup_insert_ne, Hfwd by done. simpl.
    unfold lift. rewrite Hl.
    unfold try_except, bind, Iptables.run_ipt, Iptables.run_ipt_restore.
    simpl. rewrite !pf_get_set.
    rewrite lookup_insert_ne, lookup_insert_eq by done. simpl.
    rewrite !pf_get_set, lookup_insert_eq, Hacc. simpl.
    eexists. split; [done|]. simpl. rewrite !pf_get_set. split.
    + apply elem_of_union_l, elem_of_singleton. done.
    + intros _. unfold t. rewrite Hfwd. simpl.
      rewrite !lookup_insert_ne by done. by rewrite lookup_insert_eq.
Qed.

(** With inputs [nft] accepts, and a table that holds every registered
    chain, the modern application goes through; a chain not yet
    registered is created, entered last in [forward] and registered. *)
Lemma nft_apply_rules_family_succeeds (E : env) (source : string)
    (rules : list rule) (fam : family) (st : Nftables.state)
    (lines : list string) :
  let chain := Nftables.chain_for_addr source in
  let t := pf_get fam (Nftables.kernel st) in
  Nftables.nft_rules E rules fam = Ok lines →
  nft_accepts E (Nftables.nft_text chain fam lines) = true →
  (chain ∈ pf_get fam (Nftables.chains st) → is_Some (t !! chain)) →
  (chain ∉ pf_get fam (Nftables.chains st) →
   nft_accepts E (Nftables.create_chain_text source chain fam) = true) →
  ∃ st',
    Nftables.apply_rules_family E source rules fam st = (Ok (), st')
    ∧ chain ∈ pf_get fam (Nftables.chains st')
    ∧ (chain ∉ pf_get fam (Nftables.chains st) →
       ∃ entries,
         pf_get fam (Nftables.kernel st') !! "forward"
         = Some (entries
                 ++ [Nftables.ip_match fam +:+ " saddr " +:+ source
                     +:+ " jump " +:+ chain])).
Proof.
  intros chain t Hl Hacc Hreg Hnew.
  assert (chain ≠ "forward") as Hne by (unfold chain, Nftables.chain_for_addr; discriminate).
  unfold Nftables.apply_rules_family. fold chain.
  unfold bind at 1. case_bool_decide as Hin.
  - destruct (Hreg Hin) as [old Hold]. unfold t in Hold.
    unfold ret, bind, lift. rewrite Hl.
    unfold Nftables.run_nft. rewrite Hacc. simpl. rewrite Hold. simpl.
    eexists. split; [done|]. split; [done | tauto].
  - unfold Nftables.create_chain, bind, Nftables.run_nft.
    rewrite (Hnew Hin). simpl.
    unfold lift. rewrite Hl. rewrite Hacc. simpl.
    rewrite !pf_get_set.
    rewrite lookup_insert_ne, lookup_insert_eq by done. simpl.
    eexists. split; [done|]. simpl. rewrite !pf_get_set. split.
    + apply elem_of_union_l, elem_of_singleton. done.
    + intros _. rewrite !lookup_insert_ne by done.
      rewrite lookup_insert_eq. by eexists.
Qed.

Lemma ipt_apply_rules_succeeds (E : env) (SA : string) (R : list rule)
    (st : Iptables.state) (lines : list string) :
  let fam := family_of SA in
  let chain := Iptables.chain_for_addr SA in
  let t := pf_get fam (Iptables.kernel st) in
  Iptables.ipt_rules E chain R fam = Ok lines →
  restore_accepts E fam (Iptables.ipt_text lines) = true →
  (chain ∈ pf_get fam (Iptables.chains st) → is_Some (t !! chain)) →
  (chain ∉ pf_get fam (Iptables.chains st) →
   t !! chain = None ∧ is_Some (t !! "QBS-FORWARD")) →
  ∃ st',
    Iptables.apply_rules E SA R st = (Ok (), st')
    ∧ chain ∈ pf_get fam (Iptables.chains st')
    ∧ (chain ∉ pf_get fam (Iptables.chains st) →
       pf_get fam (Iptables.kernel st') !! "QBS-FORWARD"
       = (fun old => Py.join " " ["-s"; SA; "-j"; chain] :: old)
         <$> t !! "QBS-FORWARD").
Proof.
  unfold Iptables.apply_rules, family_of.
  destruct (is_ip6 SA); apply ipt_apply_rules_family_succeeds.
Qed.

Lemma nft_apply_rules_succeeds (E : env) (SA : string) (R : list rule)
    (st : Nftables.state) (lines : list string) :
  let fam := family_of SA in
  let chain := Nftables.chain_for_addr SA in
  let t := pf_get fam (Nftables.kernel st) in
  Nftables.nft_rules E R fam = Ok lines →
  nft_accepts E (Nftables.nft_text chain fam lines) = true →
  (chain ∈ pf_get fam (Nftables.chains st) → is_Some (t !! chain)) →
  (chain ∉ pf_get fam (Nftables.chains st) →
   nft_accepts E (Nftables.create_chain_text SA chain fam) = true) →
  ∃ st',
    Nftables.apply_rules E SA R st = (Ok (), st')
    ∧ chain ∈ pf_get fam (Nftables.chains st')
    ∧ (chain ∉ pf_get fam (Nftables.chains st) →
       ∃ entries,
         pf_get fam (Nftables.kernel st') !! "forward"
         = Some (entries
                 ++ [Nftables.ip_match fam +:+ " saddr " +:+ SA
                     +:+ " jump " +:+ chain])).
Proof.
  unfold Nftables.apply_rules, family_of.
  destruct (is_ip6 SA); apply nft_apply_rules_family_succeeds.
Qed.

(** When reading and applying both succeed, [handle_addr] is that
    application and logs nothing. *)
Lemma handle_addr_ok {B} `{Backend B} (E : env) (SA : string)
    (R : list rule) (w : worker B) (b' : B) :
  read_rules E SA = Ok R →
  apply_rules E SA R (backend w) = (Ok (), b') →
  handle_addr E SA w = (Ok (), Worker b' (errlog w)).
Proof.
  intros HR HA. unfold handle_addr, bind, lift, on_backend.
  by rewrite HR, HA.
Qed.

(** C1: after a successful [apply_rules(SA, R)] the chain of [SA] holds
    exactly what the rules of [R] translate to, rule after rule in the
    order of [R], whatever it held before; and when [R] is what
    [read_rules(SA)] returned, so that [handle_addr(SA)] is this
    application, the chain ends with the translation of the policy rule,
    the terminal verdict.  Both backends.  The application does succeed
    whenever the rules translate, the tool accepts what it is given and
    the tables agree with the registry; it then registers the chain and,
    for a chain not registered before, enters the jump for [SA] in the
    forward chain. *)
Theorem apply_rules_installs_translation (E : env) (SA : string) :
  let fam := family_of SA in
  let ipt_tr := Iptables.ipt_rule E (Iptables.chain_for_addr SA) fam
                  (dns_list E fam) in
  let nft_tr := Nftables.nft_rule E fam (dns_list E fam) in
  (∀ R st st',
     Iptables.apply_rules E SA R st = (Ok (), st') →
     ∃ per, Forall2 (fun r ls => ipt_tr r = Ok ls) R per
            ∧ Iptables.kernel_chain st' SA = Some (concat per))
  ∧ (∀ R st st',
     Nftables.apply_rules E SA R st = (Ok (), st') →
     ∃ per, Forall2 (fun r ls => nft_tr r = Ok ls) R per
            ∧ Nftables.kernel_chain st' SA = Some (concat per))
  ∧ (∀ R (w : worker Iptables.state) st',
     read_rules E SA = Ok R →
     Iptables.apply_rules E SA R (backend w) = (Ok (), st') →
     handle_addr E SA w = (Ok (), Worker st' (errlog w))
     ∧ ∃ rules policy per,
         R = rules ++ [ {[ "action" := policy ]} ]
         ∧ Forall2 (fun r ls => ipt_tr r = Ok ls) rules per
         ∧ Iptables.kernel_chain st' SA
           = Some (concat per
                   ++ [Iptables.ipt_line (Iptables.chain_for_addr SA)
                         None None None None policy]))
  ∧ (∀ R (w : worker Nftables.state) st',
     read_rules E SA = Ok R →
     Nftables.apply_rules E SA R (backend w) = (Ok (), st') →
     handle_addr E SA w = (Ok (), Worker st' (errlog w))
     ∧ ∃ rules policy per,
         R = rules ++ [ {[ "action" := policy ]} ]
         ∧ Forall2 (fun r ls => nft_tr r = Ok ls) rules per
         ∧ Nftables.kernel_chain st' SA
           = Some (concat per ++ [" " +:+ policy]))
  ∧ (∀ R st lines,
     let chain := Iptables.chain_for_addr SA in
     let t := pf_get fam (Iptables.kernel st) in
     Iptables.ipt_rules E chain R fam = Ok lines →
     restore_accepts E fam (Iptables.ipt_text lines) = true →
     (chain ∈ pf_get fam (Iptables.chains st) → is_Some (t !! chain)) →
     (chain ∉ pf_get fam (Iptables.chains st) →
      t !! chain = None ∧ is_Some (t !! "QBS-FORWARD")) →
     ∃ st',
       Iptables.apply_rules E SA R st = (Ok (), st')
       ∧ Iptables.kernel_chain st' SA = Some lines
       ∧ chain ∈ pf_get fam (Iptables.chains st')
       ∧ (chain ∉ pf_get fam (Iptables.chains st) →
          pf_get fam (Iptables.kernel st') !! "QBS-FORWARD"
          = (fun old => Py.join " " ["-s"; SA; "-j"; chain] :: old)
            <$> t !! "QBS-FORWARD"))
  ∧ (∀ R st lines,
     let chain := Nftables.chain_for_addr SA in
     let t := pf_get fam (Nftables.kernel st) in
     Nftables.nft_rules E R fam = Ok lines →
     nft_accepts E (Nftables.nft_text chain fam lines) = true →
     (chain ∈ pf_get fam (Nftables.chains st) → is_Some (t !! chain)) →
     (chain ∉ pf_get fam (Nftables.chains st) →
      nft_accepts E (Nftables.create_chain_text SA chain fam) = true) →
     ∃ st',
       Nftables.apply_rules E SA R st = (Ok (), st')
       ∧ Nftables.kernel_chain st' SA = Some lines
       ∧ chain ∈ pf_get fam (Nftables.chains st')
       ∧ (chain ∉ pf_get fam (Nftables.chains st) →
          ∃ entries,
            pf_get fam (Nftables.kernel st') !! "forward"
            = Some (entries
                    ++ [Nftables.ip_match fam +:+ " saddr " +:+ SA
                        +:+ " jump " +:+ chain]))).
Proof.
  intros fam ipt_tr nft_tr.
  assert (∀ R st st',
     Iptables.apply_rules E SA R st = (Ok (), st') →
     ∃ per, Forall2 (fun r ls => ipt_tr r = Ok ls) R per
            ∧ Iptables.kernel_chain st' SA = Some (concat per)) as Hipt.
  { intros R st st' HA.
    destruct (ipt_apply_rules_ok _ _ _ _ _ HA) as (lines & Hl & Hk).
    apply for_each_ok in Hl as (per & HF & ->). by exists per. }
  assert (∀ R st st',
     Nftables.apply_rules E SA R st = (Ok (), st') →
     ∃ per, Forall2 (fun r ls => nft_tr r = Ok ls) R per
            ∧ Nftables.kernel_chain st' SA = Some (concat per)) as Hnft.
  { intros R st st' HA.
    destruct (nft_apply_rules_ok _ _ _ _ _ HA) as (lines & Hl & Hk).
    apply for_each_ok in Hl as (per & HF & ->). by exists per. }
  split; [exact Hipt|]. split; [exact Hnft|].
  split; [|split; [|split]].
  - intros R w st' HR HA. split; [by apply (handle_addr_ok E SA R)|].
    destruct (read_rules_of_tail _ _ HR) as (rules & policy & ->).
    destruct (Hipt _ _ _ HA) as (per & HF & Hk).
    apply Forall2_app_inv_l in HF as (per1 & per2 & HF1 & HF2 & ->).
    inversion HF2 as [|? ls ? ? Hp HF3]; subst. inversion HF3; subst.
    unfold ipt_tr in Hp. rewrite ipt_rule_policy in Hp.
    injection Hp as <-.
    exists rules, policy, per1. repeat split; [done|].
    by rewrite Hk, concat_app.
  - intros R w st' HR HA. split; [by apply (handle_addr_ok E SA R)|].
    destruct (read_rules_of_tail _ _ HR) as (rules & policy & ->).
    destruct (Hnft _ _ _ HA) as (per & HF & Hk).
    apply Forall2_app_inv_l in HF as (per1 & per2 & HF1 & HF2 & ->).
    inversion HF2 as [|? ls ? ? Hp HF3]; subst. inversion HF3; subst.
    unfold nft_tr in Hp. rewrite nft_rule_policy in Hp.
    injection Hp as <-.
    exists rules, policy, per1. repeat split; [done|].
    by rewrite Hk, concat_app.
  - intros R st lines chain t Hl Hacc Hreg Hnew.
    destruct (ipt_apply_rules_succeeds E SA R st lines Hl Hacc Hreg Hnew)
      as (st' & HA & Hin & Hjump).
    exists st'. split; [exact HA|]. split; [|by split].
    destruct (ipt_apply_rules_ok _ _ _ _ _ HA) as (lines' & Hl' & Hk).
    fold chain fam in Hl'. rewrite Hl in Hl'. by injection Hl' as <-.
  - intros R st lines chain t Hl Hacc Hreg Hnew.
    destruct (nft_apply_rules_succeeds E SA R st lines Hl Hacc Hreg Hnew)
      as (st' & HA & Hin & Hjump).
    exists st'. split; [exact HA|]. split; [|by split].
    destruct (nft_apply_rules_ok _ _ _ _ _ HA) as (lines' & Hl' & Hk).
    fold fam in Hl'. rewrite Hl in Hl'. by injection Hl' as <-.
Qed.

(** Scenario 1 read and installed on a fresh worker of each backend. *)
Lemma apply_rules_installs_translation_witness :
  let SA := "10.137.0.5" in
  let st' := (Iptables.apply_rules scenario1_env SA scenario1_rules
                ipt_initial).2 in
  let nst' := (Nftables.apply_rules scenario1_env SA scenario1_rules
                 nft_initial).2 in
  read_rules scenario1_env SA = Ok scenario1_rules
  ∧ Iptables.apply_rules scenario1_env SA scenario1_rules ipt_initial
    = (Ok (), st')
  ∧ handle_addr scenario1_env SA (Worker ipt_initial [])
    = (Ok (), Worker st' [])
  ∧ Iptables.kernel_chain st' SA
    = Some ["-A qbs-10-137-0-5 -p tcp --dport 443 -j ACCEPT" +:+ Py.nl;
            "-A qbs-10-137-0-5 -j DROP" +:+ Py.nl]
  ∧ Nftables.apply_rules scenario1_env SA scenario1_rules nft_initial
    = (Ok (), nst')
  ∧ handle_addr scenario1_env SA (Worker nft_initial [])
    = (Ok (), Worker nst' [])
  ∧ Nftables.kernel_chain nst' SA
    = Some [" ip protocol tcp tcp dport 443 accept"; " drop"]
  ∧ fam4 (Nftables.kernel nst') !! "forward"
    = Some ["ct state established,related accept";
            "ip saddr 10.137.0.5 jump qbs-10-137-0-5"]
  ∧ (∃ st1, Iptables.apply_rules scenario1_env SA scenario1_rules
              ipt_initial = (Ok (), st1)
            ∧ "qbs-10-137-0-5" ∈ fam4 (Iptables.chains st1))
  ∧ (∃ st1, Nftables.apply_rules scenario1_env SA scenario1_rules
              nft_initial = (Ok (), st1)
            ∧ "qbs-10-137-0-5" ∈ fam4 (Nftables.chains st1)).
Proof.
  intros SA st' nst'.
  pose proof (apply_rules_installs_translation scenario1_env SA)
    as (_ & _ & Hi & Hn & Hpi & Hpn).
  assert (read_rules scenario1_env SA = Ok scenario1_rules) as HR
    by (vm_compute; reflexivity).
  assert (Iptables.apply_rules scenario1_env SA scenario1_rules ipt_initial
          = (Ok (), st')) as HA by (vm_compute; reflexivity).
  assert (Nftables.apply_rules scenario1_env SA scenario1_rules nft_initial
          = (Ok (), nst')) as HN by (vm_compute; reflexivity).
  split; [exact HR|]. split; [exact HA|].
  split; [exact (proj1 (Hi scenario1_rules (Worker ipt_initial []) st'
                          HR HA))|].
  split; [vm_compute; reflexivity|].
  split; [exact HN|].
  split; [exact (proj1 (Hn scenario1_rules (Worker nft_initial []) nst'
                          HR HN))|].
  split; [vm_compute; reflexivity|].
  split; [vm_compute; reflexivity|].
  split.
  - destruct (Hpi scenario1_rules ipt_initial
                ["-A qbs-10-137-0-5 -p tcp --dport 443 -j ACCEPT" +:+ Py.nl;
                 "-A qbs-10-137-0-5 -j DROP" +:+ Py.nl]
                ltac:(vm_compute; reflexivity)
                ltac:(reflexivity)
                ltac:(intros H; vm_compute in H; discriminate)
                ltac:(intros _; split; [vm_compute; reflexivity
                                       | vm_compute; eauto]))
      as (st1 & H1 & _ & H2 & _).
    exists st1. split; [exact H1 | exact H2].
  - destruct (Hpn scenario1_rules nft_initial
                [" ip protocol tcp tcp dport 443 accept"; " drop"]
                ltac:(vm_compute; reflexivity)
                ltac:(reflexivity)
                ltac:(intros H; vm_compute in H; discriminate)
                ltac:(intros _; reflexivity))
      as (st1 & H1 & _ & H2 & _).
    exists st1. split; [exact H1 | exact H2].
Defined.

(** ** Shared chains of the legacy backend *)

(** C10: two distinct IPv6 source addresses get one chain name; a
    successful application for the second replaces, in that one chain, the
    rules installed for the first. *)
Theorem chain_for_addr_not_injective :
  collide_a ≠ collide_b
  ∧ is_ip6 collide_a = true ∧ is_ip6 collide_b = true
  ∧ Iptables.chain_for_addr collide_a = Iptables.chain_for_addr collide_b
  ∧ ∀ E R1 R2 st st1 st2,
      Iptables.apply_rules E collide_a R1 st = (Ok (), st1) →
      Iptables.apply_rules E collide_b R2 st1 = (Ok (), st2) →
      ∃ lines,
        Iptables.ipt_rules E (Iptables.chain_for_addr collide_b) R2 F6
        = Ok lines
        ∧ Iptables.kernel_chain st2 collide_a = Some lines
        ∧ Iptables.kernel_chain st2 collide_b = Some lines.
Proof.
  split; [done|]. split; [done|]. split; [done|]. split; [done|].
  intros E R1 R2 st st1 st2 _ H2.
  destruct (ipt_apply_rules_ok _ _ _ _ _ H2) as (lines & Hl & Hk).
  exists lines. split; [exact Hl|]. split; [|exact Hk].
  exact Hk.
Qed.

(** An accept-all rule set for the first address, then a drop-all one
    for the second. *)
Lemma chain_for_addr_not_injective_witness :
  let E := plain_env [] [] (fun _ => None) in
  let R1 := [ ({[ "action" := "accept" ]} : rule) ] in
  let R2 := [ ({[ "action" := "drop" ]} : rule) ] in
  let st1 := (Iptables.apply_rules E collide_a R1 ipt_initial).2 in
  let st2 := (Iptables.apply_rules E collide_b R2 st1).2 in
  Iptables.apply_rules E collide_a R1 ipt_initial = (Ok (), st1)
  ∧ Iptables.apply_rules E collide_b R2 st1 = (Ok (), st2)
  ∧ Iptables.kernel_chain st1 collide_a
    = Some ["-A qbs-09-24ef-4179-0000--3 -j ACCEPT" +:+ Py.nl]
  ∧ Iptables.kernel_chain st2 collide_a
    = Some ["-A qbs-09-24ef-4179-0000--3 -j DROP" +:+ Py.nl]
  ∧ ∃ lines, Iptables.kernel_chain st2 collide_a = Some lines
             ∧ Iptables.kernel_chain st2 collide_b = Some lines.
Proof.
  intros E R1 R2 st1 st2.
  assert (Iptables.apply_rules E collide_a R1 ipt_initial = (Ok (), st1))
    as H1 by (vm_compute; reflexivity).
  assert (Iptables.apply_rules E collide_b R2 st1 = (Ok (), st2))
    as H2 by (vm_compute; reflexivity).
  split; [exact H1|]. split; [exact H2|].
  split; [vm_compute; reflexivity|]. split; [vm_compute; reflexivity|].
  destruct (proj2 (proj2 (proj2 (proj2 chain_for_addr_not_injective)))
              E R1 R2 ipt_initial st1 st2 H1 H2) as (lines & _ & Ha & Hb).
  exists lines. split; [exact Ha | exact Hb].
Defined.

(** The second address gets no jump of its own: the chain is already
    registered, so [create_chain] is not run for it. *)
Example shared_chain_single_jump :
  let E := plain_env [] [] (fun _ => None) in
  let R := [ ({[ "action" := "accept" ]} : rule) ] in
  let st1 := (Iptables.apply_rules E collide_a R ipt_initial).2 in
  let st2 := (Iptables.apply_rules E collide_b R st1).2 in
  fam6 (Iptables.kernel st2) !! "QBS-FORWARD"
  = Some ["-s fd09:24ef:4179:0000::3 -j qbs-09-24ef-4179-0000--3";
          "-j DROP"].
Proof. vm_compute. reflexivity. Qed.

(** ** Scenario 1 on the legacy backend *)

(** C6, as the code has it: the single port stays a single port, since
    [dstports] only has its ['-'] rewritten to [':']; written as the
    range [443-443] it is emitted as [443:443]. *)
Theorem scenario1_program (E : env) :
  read_rules_of scenario1_store = Ok scenario1_rules
  ∧ Iptables.chain_for_addr "10.137.0.5" = "qbs-10-137-0-5"
  ∧ Iptables.prepare_rules E "qbs-10-137-0-5" scenario1_rules F4
    = Ok ("*filter" +:+ Py.nl
          +:+ "-A qbs-10-137-0-5 -p tcp --dport 443 -j ACCEPT" +:+ Py.nl
          +:+ "-A qbs-10-137-0-5 -j DROP" +:+ Py.nl
          +:+ "COMMIT" +:+ Py.nl)
  ∧ Iptables.prepare_rules E "qbs-10-137-0-5" scenario1_range_rules F4
    = Ok ("*filter" +:+ Py.nl
          +:+ "-A qbs-10-137-0-5 -p tcp --dport 443:443 -j ACCEPT" +:+ Py.nl
          +:+ "-A qbs-10-137-0-5 -j DROP" +:+ Py.nl
          +:+ "COMMIT" +:+ Py.nl).
Proof.
  split; [vm_compute; reflexivity|]. split; [reflexivity|].
  split; vm_compute; reflexivity.
Qed.

(** C6, as the spec words it, fails: the program prepared in scenario 1
    has no line with [--dport 443:443]. *)
Lemma scenario1_no_lo_hi_line :
  ¬ (∃ prog,
       Iptables.prepare_rules scenario1_env "qbs-10-137-0-5"
         scenario1_rules F4 = Ok prog
       ∧ Py.contains "-A qbs-10-137-0-5 -p tcp --dport 443:443 -j ACCEPT"
           prog = true).
Proof.
  intros (prog & Hp & Hc).
  vm_compute in Hp. injection Hp as <-.
  vm_compute in Hc. discriminate.
Qed.

(** ** The config reader, continued *)

#[local] Instance item_le_total : Total item_le.
Proof.
  intros [k1 v1] [k2 v2]. unfold item_le; simpl.
  destruct (decide (k1 = k2)) as [->|Hk].
  - destruct (total String.le v1 v2); [left | right]; right; done.
  - destruct (total String.le k1 k2); [left | right]; left; done.
Qed.

(** [sorted(entries.items())] lists the items of the dictionary in the
    order of their keys. *)
Lemma sorted_items_spec (entries : gmap string string) :
  sorted_items entries ≡ₚ map_to_list entries
  ∧ Sorted item_le (sorted_items entries).
Proof.
  split; [apply merge_sort_Permutation | apply Sorted_merge_sort, _].
Qed.

(** A loop that ends normally has seen only four-digit identifiers, and
    returns, in the order of the items, the dictionary of each value. *)
Lemma read_loop_ok (items : list (string * string)) (rules : list rule) :
  read_loop items = Ok rules →
  Forall2 (fun it r =>
             String.length it.1 = 4 ∧ Py.isdigit it.1 = true
             ∧ parse_rule it.2 = Ok r ∧ is_Some (r !! "action"))
    items rules.
Proof.
  revert rules; induction items as [|[k v] items IH]; intros rules; simpl.
  - intros [= <-]. constructor.
  - destruct (String.length k =? 4)%nat eqn:Hlen; simpl; [|done].
    destruct (Py.isdigit k) eqn:Hdig; simpl; [|done].
    destruct (parse_rule v) as [r|e] eqn:Hv; simpl; [|done].
    case_bool_decide as Hact; [done|].
    destruct (read_loop items) as [rs|e] eqn:Hrs; simpl; [|done].
    intros [= <-]. constructor; [|by apply IH].
    simpl. repeat split; try done.
    + by apply Nat.eqb_eq.
    + by apply not_eq_None_Some.
Qed.

(** The policy is looked up first: without it nothing else is read. *)
Lemma read_rules_of_no_policy (items : list (string * string))
    (entries : gmap string string) :
  drop_full_path ∅ items = Ok entries →
  entries !! "policy" = None →
  read_rules_of items = Raise RuleParseError.
Proof.
  intros H1 H2. unfold read_rules_of. rewrite H1. simpl. by rewrite H2.
Qed.

(** What [read_rules] returns: the rules in the order of their
    identifiers, then the policy rule. *)
Lemma read_rules_of_ok (items : list (string * string)) (R : list rule) :
  read_rules_of items = Ok R →
  ∃ entries policy rules,
    drop_full_path ∅ items = Ok entries
    ∧ entries !! "policy" = Some policy
    ∧ R = rules ++ [ {[ "action" := policy ]} ]
    ∧ Forall2 (fun it r =>
                 String.length it.1 = 4 ∧ Py.isdigit it.1 = true
                 ∧ parse_rule it.2 = Ok r ∧ is_Some (r !! "action"))
        (sorted_items (delete "policy" entries)) rules.
Proof.
  unfold read_rules_of.
  destruct (drop_full_path ∅ items) as [entries|e]; simpl; [|done].
  destruct (entries !! "policy") as [policy|] eqn:Hp; [|done].
  destruct (read_loop _) as [rules|e] eqn:Hl; simpl; [|done].
  intros [= <-]. exists entries, policy, rules.
  repeat split; try done. by apply read_loop_ok.
Qed.

(** C3 at an input where the code leaves the claim: a rule whose value
    has a token without [=] makes [dict()] raise [ValueError], which is
    not [RuleParseError] and which [handle_addr] does not catch. *)
Theorem read_rules_bad_token_raises_ValueError :
  read_rules_of bad_token_store = Raise ValueError
  ∧ read_rules_of bad_token_store ≠ Raise RuleParseError
  ∧ (handle_addr bad_token_env "10.137.0.5" (Worker ipt_initial [])).1
    = Raise ValueError.
Proof.
  split; [vm_compute; reflexivity|].
  split; [vm_compute; discriminate | vm_compute; reflexivity].
Qed.

(** ** The fail-safe driver *)

(** An application that fails after a good read is contained: the
    fallback is tried, and its own failure is only logged. *)
Lemma handle_addr_apply_error_contained {B} `{Backend B} (E : env)
    (SA : string) (R : list rule) (w : worker B) (b1 b2 : B)
    (r : result unit) :
  read_rules E SA = Ok R →
  apply_rules E SA R (backend w) = (Raise RuleApplyError, b1) →
  apply_rules E SA fallback_rules b1 = (r, b2) →
  r = Ok () ∨ r = Raise RuleApplyError →
  (handle_addr E SA w).1 = Ok ()
  ∧ backend (handle_addr E SA w).2 = b2.
Proof.
  intros HR HA HF Hr.
  unfold handle_addr, bind, lift, on_backend, try_except, log_error.
  rewrite HR, HA. simpl. rewrite HF.
  destruct Hr as [-> | ->]; simpl; done.
Qed.

(** After a failed read there is no such guard: whatever the fallback
    application raises leaves [handle_addr]. *)
Lemma handle_addr_parse_error_unguarded {B} `{Backend B} (E : env)
    (SA : string) (w : worker B) (b' : B) (e : exn) :
  read_rules E SA = Raise RuleParseError →
  apply_rules E SA fallback_rules (backend w) = (Raise e, b') →
  handle_addr E SA w
  = (Raise e, Worker b' (errlog w ++ [FailedToParse SA])).
Proof.
  intros HR HA.
  unfold handle_addr, bind, lift, on_backend, log_error.
  rewrite HR. simpl. by rewrite HA.
Qed.

(** C2 at an input where the code leaves the claim: the store has no
    [policy] and the tool rejects the fallback program; the
    [RuleApplyError] of the fallback leaves [handle_addr], on either
    backend, and ends the watch loop before the next address is
    handled. *)
Theorem handle_addr_fallback_failure_escapes :
  read_rules rejecting_env "10.137.0.5" = Raise RuleParseError
  ∧ (handle_addr rejecting_env "10.137.0.5" (Worker ipt_initial [])).1
    = Raise RuleApplyError
  ∧ errlog (handle_addr rejecting_env "10.137.0.5"
              (Worker ipt_initial [])).2
    = [FailedToParse "10.137.0.5"]
  ∧ (handle_addr rejecting_env "10.137.0.5" (Worker nft_initial [])).1
    = Raise RuleApplyError
  ∧ (let run := watch_loop rejecting_env
                  ["/qubes-firewall/10.137.0.5"; "/qubes-firewall/10.137.0.6"]
                  (Worker ipt_initial []) in
     run.1 = Raise RuleApplyError
     ∧ Iptables.kernel_chain (backend run.2) "10.137.0.6" = None).
Proof. repeat split; vm_compute; reflexivity. Qed.

(** ** Translation errors *)

(** With an action to emit, the emission loops raise nothing and produce
    one line per pair, protocols outermost. *)
Lemma emit_ok (chain : string) (r : rule) (ps ds : list (option string))
    (dp it : option string) (a : string) :
  r !! "action" = Some a →
  Iptables.emit chain r ps ds dp it
  = Ok (concat ((fun p =>
          (fun d => Iptables.ipt_line chain d p dp it a) <$> ds) <$> ps)).
Proof.
  intros Ha. unfold Iptables.emit.
  assert (∀ p, for_each (fun d =>
             let! action := getitem r "action" in
             Ok [Iptables.ipt_line chain d p dp it action]) ds
          = Ok ((fun d => Iptables.ipt_line chain d p dp it a) <$> ds))
    as Hin.
  { intros p. induction ds as [|d ds IH]; simpl; [done|].
    unfold getitem at 1. rewrite Ha. simpl. by rewrite IH. }
  induction ps as [|p ps IH]; simpl; [done|].
  by rewrite Hin, IH.
Qed.

Lemma check_rule_exn (fam : family) (r : rule) (e : exn) :
  check_rule fam r = Raise e → e = RuleParseError.
Proof. unfold check_rule. repeat case_match; congruence. Qed.

Lemma resolve_exn (E : env) (fam : family) (h : string) (e : exn) :
  resolve E fam h = Raise e → e = RuleParseError.
Proof. unfold resolve. case_match; congruence. Qed.

(** A rule that has an action makes the legacy translation raise
    nothing but [RuleParseError]. *)
Lemma ipt_rule_exn (E : env) (chain : string) (fam : family)
    (dns : list string) (r : rule) (e : exn) :
  is_Some (r !! "action") →
  Iptables.ipt_rule E chain fam dns r = Raise e → e = RuleParseError.
Proof.
  intros [a Ha]. unfold Iptables.ipt_rule.
  destruct (check_rule fam r) as [[]|e'] eqn:Hc; simpl;
    [|intros [= <-]; by eapply check_rule_exn].
  destruct (Iptables.rule_dsthosts E fam r) as [ds|e'] eqn:Hd; simpl.
  - case_bool_decide.
    + destruct (Iptables.special_dns _ _ _ _) as [[[p d] dp]|]; [|done].
      by rewrite (emit_ok _ _ _ _ _ _ a).
    + by rewrite (emit_ok _ _ _ _ _ _ a).
  - intros [= <-]. unfold Iptables.rule_dsthosts in Hd.
    repeat case_match; try congruence.
    destruct (resolve E fam _) eqn:Hr; simpl in Hd; [done|].
    injection Hd as <-. by eapply resolve_exn.
Qed.

Lemma expand_ports_ok (r : rule) (sel : string) (dp : option string)
    (a : string) :
  r !! "action" = Some a →
  Nftables.expand_ports r sel dp
  = Ok (match dp with
        | Some ports =>
            match r !! "proto" with
            | None =>
                [sel +:+ " tcp dport " +:+ ports +:+ " " +:+ a;
                 sel +:+ " udp dport " +:+ ports +:+ " " +:+ a]
            | Some proto =>
                [sel +:+ " " +:+ proto +:+ " dport " +:+ ports +:+ " " +:+ a]
            end
        | None => [sel +:+ " " +:+ a]
        end).
Proof.
  intros Ha. unfold Nftables.expand_ports, getitem. rewrite Ha.
  by repeat case_match.
Qed.

(** The same for the modern translation. *)
Lemma nft_rule_exn (E : env) (fam : family) (dns : list string) (r : rule)
    (e : exn) :
  is_Some (r !! "action") →
  Nftables.nft_rule E fam dns r = Raise e → e = RuleParseError.
Proof.
  intros [a Ha]. unfold Nftables.nft_rule.
  destruct (check_rule fam r) as [[]|e'] eqn:Hc; simpl;
    [|intros [= <-]; by eapply check_rule_exn].
  destruct (Nftables.sel_dst E fam r) as [ds|e'] eqn:Hd; simpl.
  - case_bool_decide.
    + destruct (Nftables.special_dns _ _ _) as [[d dp]|]; [|done].
      by rewrite (expand_ports_ok _ _ _ a).
    + by rewrite (expand_ports_ok _ _ _ a).
  - intros [= <-]. unfold Nftables.sel_dst in Hd.
    repeat case_match; try congruence.
    destruct (resolve E fam _) eqn:Hr; simpl in Hd; [done|].
    injection Hd as <-. by eapply resolve_exn.
Qed.

(** A destination of the other family fails the checks that open the
    loop body. *)
Lemma check_rule_mismatch (fam : family) (r : rule) :
  is_Some (r !! "dst4") ∧ fam = F6 ∨ is_Some (r !! "dst6") ∧ fam = F4 →
  check_rule fam r = Raise RuleParseError.
Proof.
  intros H. unfold check_rule, has_key.
  case_bool_decide; [done|].
  destruct H as [[H ->] | [H ->]].
  - by rewrite bool_decide_eq_true_2.
  - rewrite (bool_decide_eq_true_2 (is_Some (r !! "dst6"))) by done.
    by destruct (bool_decide (is_Some (r !! "dst4"))).
Qed.

(** A loop in which some iteration raises [e], and no iteration raises
    anything else, raises [e]. *)
Lemma for_each_raises {A B} (f : A → result (list B)) (l : list A)
    (x : A) (e : exn) :
  x ∈ l → f x = Raise e →
  (∀ y e', y ∈ l → f y = Raise e' → e' = e) →
  for_each f l = Raise e.
Proof.
  induction l as [|y l IH]; intros Hx Hfx Hall; [by inversion Hx|].
  simpl. destruct (f y) as [ys|e'] eqn:Hy; simpl.
  - rewrite IH; [done| |done|].
    + apply elem_of_cons in Hx as [->|Hx]; [congruence | done].
    + intros z e' Hz. apply Hall. by right.
  - f_equal. eapply Hall; [|exact Hy]. by left.
Qed.

(** A loop in which some iteration raises does not end normally. *)
Lemma for_each_not_ok {A B} (f : A → result (list B)) (l : list A)
    (x : A) (e : exn) :
  x ∈ l → f x = Raise e → ∃ e', for_each f l = Raise e'.
Proof.
  induction l as [|y l IH]; intros Hx Hfx; [by inversion Hx|].
  simpl. destruct (f y) as [ys|e'] eqn:Hy; simpl; [|by exists e'].
  apply elem_of_cons in Hx as [->|Hx]; [congruence|].
  destruct (IH Hx Hfx) as [e' ->]. by exists e'.
Qed.

(** C9: a rule list with a [dst4] rule for family 6, or a [dst6] rule
    for family 4, never yields a program, on either backend; and with
    rules as the data model has them, each with its mandatory action,
    what [prepare_rules] raises is [RuleParseError]. *)
Theorem family_mismatch_raises_RuleParseError (E : env) (chain : string)
    (rules : list rule) (fam : family) (r : rule) :
  r ∈ rules →
  is_Some (r !! "dst4") ∧ fam = F6 ∨ is_Some (r !! "dst6") ∧ fam = F4 →
  (∃ e1 e2, Iptables.prepare_rules E chain rules fam = Raise e1
            ∧ Nftables.prepare_rules E chain rules fam = Raise e2)
  ∧ (Forall (fun r' => is_Some (r' !! "action")) rules →
     Iptables.prepare_rules E chain rules fam = Raise RuleParseError
     ∧ Nftables.prepare_rules E chain rules fam = Raise RuleParseError).
Proof.
  intros Hin Hmis.
  assert (Iptables.ipt_rule E chain fam (dns_list E fam) r
          = Raise RuleParseError) as Hi.
  { unfold Iptables.ipt_rule. by rewrite check_rule_mismatch. }
  assert (Nftables.nft_rule E fam (dns_list E fam) r
          = Raise RuleParseError) as Hn.
  { unfold Nftables.nft_rule. by rewrite check_rule_mismatch. }
  unfold Iptables.prepare_rules, Nftables.prepare_rules,
    Iptables.ipt_rules, Nftables.nft_rules.
  split.
  - destruct (for_each_not_ok _ rules r _ Hin Hi) as [e1 H1].
    destruct (for_each_not_ok _ rules r _ Hin Hn) as [e2 H2].
    exists e1, e2. by rewrite H1, H2.
  - intros Hact. rewrite Forall_forall in Hact. split.
    + rewrite (for_each_raises _ rules r RuleParseError); [done..|].
      intros y e' Hy. apply ipt_rule_exn. by apply Hact.
    + rewrite (for_each_raises _ rules r RuleParseError); [done..|].
      intros y e' Hy. apply nft_rule_exn. by apply Hact.
Qed.

(** A rule without action, which [read_rules] never returns, makes the
    emission raise [KeyError] before the mismatch is reached. *)
Example rule_without_action_raises_KeyError :
  Iptables.prepare_rules scenario1_env "qbs-fd00--1"
    [ {[ "proto" := "tcp" ]};
      {[ "action" := "accept"; "dst4" := "192.0.2.0/24" ]} ] F6
  = Raise KeyError.
Proof. vm_compute. reflexivity. Qed.

(** An IPv4 destination among the rules of an IPv6 address. *)
Lemma family_mismatch_raises_RuleParseError_witness :
  let rules : list rule :=
    [ {[ "action" := "accept"; "proto" := "tcp" ]};
      {[ "action" := "accept"; "dst4" := "192.0.2.0/24" ]};
      {[ "action" := "drop" ]} ] in
  Iptables.prepare_rules scenario1_env "qbs-fd00--1" rules F6
  = Raise RuleParseError
  ∧ Nftables.prepare_rules scenario1_env "qbs-fd00--1" rules F6
    = Raise RuleParseError.
Proof.
  intros rules.
  apply (family_mismatch_raises_RuleParseError scenario1_env "qbs-fd00--1"
           rules F6 {[ "action" := "accept"; "dst4" := "192.0.2.0/24" ]}).
  - apply elem_of_cons; right. apply elem_of_cons; left. reflexivity.
  - left. split; [vm_compute; eauto | reflexivity].
  - repeat constructor; vm_compute; eauto.
Defined.

(** ** Port expansion on the modern backend *)

Lemma split_no_sep (sep : ascii) (p : string) :
  Py.count sep p = 0 → Py.split sep p = [p].
Proof.
  induction p as [|c p IH]; simpl; [done|].
  destruct (Ascii.eqb c sep); simpl; [done|].
  intros H. by rewrite IH.
Qed.

Lemma split_app_sep (sep : ascii) (p q : string) :
  Py.count sep p = 0 →
  Py.split sep (p +:+ String sep q) = p :: Py.split sep q.
Proof.
  induction p as [|c p IH]; intros H.
  - change ("" +:+ String sep q) with (String sep q).
    simpl. by rewrite Ascii.eqb_refl.
  - rewrite append_cons. simpl in *.
    destruct (Ascii.eqb c sep); [done|]. by rewrite IH.
Qed.

(** A range whose endpoints are equal collapses to the endpoint, any
    other range and a single port are left as they are. *)
Lemma collapse_range (lo hi : string) :
  Py.count "-" lo = 0 → Py.count "-" hi = 0 →
  Nftables.collapse (lo +:+ "-" +:+ hi)
  = (if decide (lo = hi) then lo else lo +:+ "-" +:+ hi)
  ∧ Nftables.collapse lo = lo.
Proof.
  intros Hlo Hhi. unfold Nftables.collapse. split.
  - change ("-" +:+ hi) with (String "-" hi).
    rewrite split_app_sep, split_no_sep by done.
    destruct (decide (lo = hi)) as [->|Hne].
    + rewrite bool_decide_eq_true_2; [done | by repeat constructor].
    + rewrite bool_decide_eq_false_2; [done|].
      intros HF. by inversion HF.
  - rewrite split_no_sep by done.
    rewrite bool_decide_eq_true_2; [done | constructor].
Qed.

(** A rule that is not a [specialtarget=dns] rule: the ports are those
    of the rule, collapsed. *)
Lemma nft_plain_rule (E : env) (fam : family) (dns : list string) (r : rule)
    (dst action : string) :
  check_rule fam r = Ok () →
  Nftables.sel_dst E fam r = Ok dst →
  r !! "action" = Some action →
  r !! "specialtarget" ≠ Some "dns" →
  Nftables.nft_rule E fam dns r
  = Nftables.expand_ports r
      ((Nftables.sel_proto fam r +:+ dst) +:+ Nftables.sel_icmptype fam r)
      (Nftables.collapse <$> r !! "dstports").
Proof.
  intros Hc Hd Ha Hs.
  unfold Nftables.nft_rule. rewrite Hc, Hd. simpl.
  by rewrite bool_decide_eq_false_2 by done.
Qed.

(** A [specialtarget=dns] rule: skipped, or expanded with its ports
    forced to [53] and the nameservers as destination. *)
Lemma nft_dns_rule (E : env) (fam : family) (dns : list string) (r : rule)
    (dst action : string) :
  check_rule fam r = Ok () →
  Nftables.sel_dst E fam r = Ok dst →
  r !! "action" = Some action →
  r !! "specialtarget" = Some "dns" →
  Nftables.nft_rule E fam dns r
  = if bool_decide (Nftables.rule_dstports r ≠ Some "53"
                    ∧ Nftables.rule_dstports r ≠ None)
       || bool_decide (dns = [])
    then Ok []
    else Nftables.expand_ports r
           ((Nftables.sel_proto fam r +:+ dst)
            +:+ Nftables.daddr_set fam dns +:+ Nftables.sel_icmptype fam r)
           (Some "53").
Proof.
  intros Hc Hd Ha Hs.
  unfold Nftables.nft_rule. rewrite Hc, Hd. simpl.
  rewrite bool_decide_eq_true_2 by done.
  unfold Nftables.special_dns.
  case_bool_decide; [done|]. by case_bool_decide.
Qed.

(** C8: on the modern backend a rule that passes the checks and whose
    destination resolves is emitted, unless the DNS step skips it, with
    [dstports] as it stands when the ports are expanded (the rule's own
    value, a range of equal endpoints collapsed to the single port and
    any other value unchanged, or [53] after the DNS step): followed by
    [tcp dport] and [udp dport] in two statements when [dstports] is set
    and [proto] absent, by [<proto> dport] in exactly one statement when
    [proto] is set, and by no port clause in a single statement when
    [dstports] is unset. *)
Theorem nft_port_expansion (E : env) (fam : family) (dns : list string)
    (r : rule) (dst action : string) :
  check_rule fam r = Ok () →
  Nftables.sel_dst E fam r = Ok dst →
  r !! "action" = Some action →
  let is_dns := bool_decide (r !! "specialtarget" = Some "dns") in
  let own := Nftables.collapse <$> r !! "dstports" in
  let skipped :=
    is_dns && (bool_decide (own ≠ Some "53" ∧ own ≠ None)
               || bool_decide (dns = [])) in
  let dstports := if is_dns then Some "53" else own in
  let sel := Nftables.sel_proto fam r +:+ dst
             +:+ (if is_dns then Nftables.daddr_set fam dns else "")
             +:+ Nftables.sel_icmptype fam r in
  Nftables.nft_rule E fam dns r
  = (if skipped then Ok []
     else
       Ok (match dstports with
           | Some d =>
               match r !! "proto" with
               | None =>
                   [sel +:+ " tcp dport " +:+ d +:+ " " +:+ action;
                    sel +:+ " udp dport " +:+ d +:+ " " +:+ action]
               | Some proto =>
                   [sel +:+ " " +:+ proto +:+ " dport " +:+ d
                    +:+ " " +:+ action]
               end
           | None => [sel +:+ " " +:+ action]
           end))
  ∧ ∀ lo hi, Py.count "-" lo = 0 → Py.count "-" hi = 0 →
             Nftables.collapse (lo +:+ "-" +:+ hi)
             = (if decide (lo = hi) then lo else lo +:+ "-" +:+ hi)
             ∧ Nftables.collapse lo = lo.
Proof.
  intros Hc Hd Ha is_dns own skipped dstports sel.
  split; [|apply collapse_range].
  unfold skipped, dstports, sel, is_dns. case_bool_decide as Hs; simpl.
  - rewrite (nft_dns_rule E fam dns r dst action) by done.
    fold own. unfold Nftables.rule_dstports. fold own.
    destruct (_ || _); [done|].
    rewrite (expand_ports_ok _ _ _ action) by done.
    by rewrite !append_assoc.
  - rewrite (nft_plain_rule E fam dns r dst action) by done.
    rewrite (expand_ports_ok _ _ _ action) by done.
    fold own. by rewrite !append_assoc.
Qed.

(** Scenario 6, where the range collapses and the rule is split by
    protocol; a proper range with a protocol; a rule without ports. *)
Lemma nft_port_expansion_witness :
  Nftables.nft_rule scenario1_env F4 [] scenario6_rule
  = Ok [" tcp dport 8000 accept"; " udp dport 8000 accept"]
  ∧ Nftables.nft_rule scenario1_env F4 [] range_rule
    = Ok [" ip protocol tcp tcp dport 80-90 drop"]
  ∧ Nftables.nft_rule scenario1_env F4 [] dst4_rule
    = Ok [" ip daddr 192.0.2.0/24 accept"]
  ∧ Nftables.collapse "80-90" = "80-90".
Proof.
  split; [|split; [|split]].
  - rewrite (proj1 (nft_port_expansion scenario1_env F4 [] scenario6_rule
                      "" "accept"
                      ltac:(vm_compute; reflexivity)
                      ltac:(vm_compute; reflexivity)
                      ltac:(vm_compute; reflexivity))).
    vm_compute. reflexivity.
  - rewrite (proj1 (nft_port_expansion scenario1_env F4 [] range_rule
                      "" "drop"
                      ltac:(vm_compute; reflexivity)
                      ltac:(vm_compute; reflexivity)
                      ltac:(vm_compute; reflexivity))).
    vm_compute. reflexivity.
  - rewrite (proj1 (nft_port_expansion scenario1_env F4 [] dst4_rule
                      " ip daddr 192.0.2.0/24" "accept"
                      ltac:(vm_compute; reflexivity)
                      ltac:(vm_compute; reflexivity)
                      ltac:(vm_compute; reflexivity))).
    vm_compute. reflexivity.
  - exact (proj1 (proj2 (nft_port_expansion scenario1_env F4 []
                           scenario6_rule "" "accept"
                           ltac:(vm_compute; reflexivity)
                           ltac:(vm_compute; reflexivity)
                           ltac:(vm_compute; reflexivity))
                    "80" "90" eq_refl eq_refl)).
Defined.

(** ** Emission order of the legacy backend *)

(** Sorting forgets the order of its input. *)
Lemma sorted_perm (l1 l2 : list string) :
  l1 ≡ₚ l2 → Py.sorted l1 = Py.sorted l2.
Proof.
  intros Hp. unfold Py.sorted.
  apply (Sorted_unique String.le).
  - apply Sorted_merge_sort, _.
  - apply Sorted_merge_sort, _.
  - by rewrite !merge_sort_Permutation.
Qed.

Lemma plain_set_iter_ok store dns4 hosts :
  set_iter_ok (plain_env store dns4 hosts).
Proof. intros s. reflexivity. Qed.

(** What the emission loops iterate does not depend on how the
    interpreter orders a set. *)
Lemma iterable_set (E : env) (s : gset string) :
  set_iter_ok E →
  Iptables.iterable E (Some (PySet s)) = Some <$> Py.sorted (elements s).
Proof. intros HE. simpl. f_equal. apply sorted_perm, HE. Qed.

Lemma iterable_indep (E1 E2 : env) (c : option pycoll) :
  set_iter_ok E1 → set_iter_ok E2 →
  Iptables.iterable E1 c = Iptables.iterable E2 c.
Proof.
  intros H1 H2. destruct c as [[l|s]|]; simpl; try done.
  f_equal. apply sorted_perm. by rewrite (H1 s), (H2 s).
Qed.

Lemma dns_protos_spec_ok (fam : family) (r : rule) :
  match Iptables.rule_protos fam r with
  | Some p => {["tcp"; "udp"]} ∩ py_set p
  | None => {["tcp"; "udp"]}
  end = dns_protos_spec r.
Proof.
  unfold Iptables.rule_protos, dns_protos_spec.
  destruct (r !! "proto") as [p|]; [|done].
  case_bool_decide as Hp; simpl.
  - subst p. destruct fam; simpl; by vm_compute.
  - simpl. by rewrite (right_id_L ∅ (∪)).
Qed.

(** C5: on the legacy backend a [specialtarget=dns] rule that passes the
    checks is skipped when its [dstports], with ['-'] rewritten to [':'],
    is set and is not [53:53], and skipped when there is no nameserver
    for the family; otherwise it is emitted with [--dport 53:53], for
    the protocols [{tcp, udp}] intersected with its own protocol (both
    when it has none) and for the nameservers intersected with its own
    destinations (all nameservers when it has none), protocols outermost
    and both in sorted order. *)
Theorem ipt_specialtarget_dns (E : env) (chain : string) (fam : family)
    (dns : list string) (r : rule) (dsthosts : option pycoll)
    (action : string) :
  set_iter_ok E →
  check_rule fam r = Ok () →
  Iptables.rule_dsthosts E fam r = Ok dsthosts →
  r !! "action" = Some action →
  r !! "specialtarget" = Some "dns" →
  let dstports := Py.replace "-" ":" <$> r !! "dstports" in
  Iptables.ipt_rule E chain fam dns r
  = if bool_decide (dstports ≠ None ∧ dstports ≠ Some "53:53") then Ok []
    else if bool_decide (dns = []) then Ok []
    else
      Ok (concat ((fun p =>
            (fun d => Iptables.ipt_line chain (Some d) (Some p)
                        (Some "53:53") (r !! "icmptype") action)
            <$> dns_dsthosts_spec dns dsthosts)
          <$> Py.sorted (elements (dns_protos_spec r)))).
Proof.
  intros HE Hc Hd Ha Hs dstports.
  unfold Iptables.ipt_rule. rewrite Hc, Hd. simpl.
  rewrite bool_decide_eq_true_2 by done.
  unfold Iptables.special_dns. fold dstports.
  unfold Iptables.rule_dstports. fold dstports.
  case_bool_decide as H1.
  - rewrite bool_decide_eq_true_2; [done | tauto].
  - rewrite (bool_decide_eq_false_2 (dstports ≠ None ∧ _)) by tauto.
    case_bool_decide as H2; [done|].
    rewrite (emit_ok _ _ _ _ _ _ action) by done.
    assert (Iptables.iterable E
              (Some match Iptables.rule_protos fam r with
                    | Some p => PySet ({["tcp"; "udp"]} ∩ py_set p)
                    | None => PySet {["tcp"; "udp"]}
                    end)
            = Some <$> Py.sorted (elements (dns_protos_spec r))) as ->.
    { rewrite <- (dns_protos_spec_ok fam).
      destruct (Iptables.rule_protos fam r); by apply iterable_set. }
    assert (Iptables.iterable E
              (Some match dsthosts with
                    | Some d => PySet (list_to_set dns ∩ py_set d)
                    | None => PyList dns
                    end)
            = Some <$> dns_dsthosts_spec dns dsthosts) as ->.
    { destruct dsthosts as [d|]; [by apply iterable_set | done]. }
    f_equal. f_equal. rewrite <- list_fmap_compose.
    apply list_fmap_ext. intros _ p _. simpl.
    by rewrite <- list_fmap_compose.
Qed.

(** Scenario 2: a DNS rule with two nameservers. *)
Lemma ipt_specialtarget_dns_witness :
  Iptables.ipt_rule dns_env "qbs-10-137-0-5" F4 (dns_list dns_env F4) dns_rule
  = Ok ["-A qbs-10-137-0-5 -d 1.1.1.1/32 -p tcp --dport 53:53 -j ACCEPT"
          +:+ Py.nl;
        "-A qbs-10-137-0-5 -d 8.8.8.8/32 -p tcp --dport 53:53 -j ACCEPT"
          +:+ Py.nl;
        "-A qbs-10-137-0-5 -d 1.1.1.1/32 -p udp --dport 53:53 -j ACCEPT"
          +:+ Py.nl;
        "-A qbs-10-137-0-5 -d 8.8.8.8/32 -p udp --dport 53:53 -j ACCEPT"
          +:+ Py.nl].
Proof.
  rewrite (ipt_specialtarget_dns dns_env "qbs-10-137-0-5" F4
             (dns_list dns_env F4) dns_rule None "accept"
             (plain_set_iter_ok _ _ _)
             ltac:(vm_compute; reflexivity)
             ltac:(vm_compute; reflexivity)
             ltac:(vm_compute; reflexivity)
             ltac:(vm_compute; reflexivity)).
  vm_compute. reflexivity.
Defined.

(** ** Determinism of the translation *)

(** What the legacy translation of a rule reads of the environment: the
    resolved address sets, the nameservers up to their order, and what
    the emission loops iterate. *)
Lemma ipt_rule_congr (E1 E2 : env) (chain : string) (fam : family)
    (dns1 dns2 : list string) (r : rule) :
  (∀ c, Iptables.iterable E1 c = Iptables.iterable E2 c) →
  dns1 ≡ₚ dns2 →
  (∀ h, resolve E1 fam h = resolve E2 fam h) →
  Iptables.ipt_rule E1 chain fam dns1 r = Iptables.ipt_rule E2 chain fam dns2 r.
Proof.
  intros Hit Hdns Hres. unfold Iptables.ipt_rule.
  destruct (check_rule fam r) as [[]|e]; simpl; [|done].
  assert (Iptables.rule_dsthosts E1 fam r = Iptables.rule_dsthosts E2 fam r)
    as ->.
  { unfold Iptables.rule_dsthosts. repeat case_match; try done.
    by rewrite Hres. }
  destruct (Iptables.rule_dsthosts E2 fam r) as [ds|e]; simpl; [|done].
  case_bool_decide.
  - unfold Iptables.special_dns.
    case_bool_decide; [done|].
    assert (dns1 = [] ↔ dns2 = []) as Hnil.
    { split; intros ->.
      - symmetry. by apply Permutation_nil_l.
      - by apply Permutation_nil_r. }
    destruct (decide (dns1 = [])) as [Hn|Hn].
    { rewrite !bool_decide_eq_true_2; [done | tauto | done]. }
    rewrite !bool_decide_eq_false_2; [|tauto | done].
    assert ((list_to_set dns1 : gset string) = list_to_set dns2) as Hset.
    { apply set_eq. intros x. rewrite !elem_of_list_to_set. by rewrite Hdns. }
    rewrite (Hit (Some _)).
    assert (Iptables.iterable E1
              (Some match ds with
                    | Some d => PySet (list_to_set dns1 ∩ py_set d)
                    | None => PyList dns1
                    end)
            = Iptables.iterable E2
                (Some match ds with
                      | Some d => PySet (list_to_set dns2 ∩ py_set d)
                      | None => PyList dns2
                      end)) as ->; [|done].
    destruct ds as [d|].
    + rewrite Hset. apply Hit.
    + simpl. f_equal. by apply sorted_perm.
  - by rewrite (Hit (Iptables.rule_protos fam r)), (Hit ds).
Qed.

(** The same for the whole program. *)
Lemma ipt_prepare_rules_congr (E1 E2 : env) (chain : string)
    (rules : list rule) (fam : family) :
  (∀ c, Iptables.iterable E1 c = Iptables.iterable E2 c) →
  dns_addresses E1 fam ≡ₚ dns_addresses E2 fam →
  (∀ h, resolve E1 fam h = resolve E2 fam h) →
  Iptables.prepare_rules E1 chain rules fam
  = Iptables.prepare_rules E2 chain rules fam.
Proof.
  intros Hit Hdns Hres.
  unfold Iptables.prepare_rules, Iptables.ipt_rules. f_equal.
  induction rules as [|r rules IH]; simpl; [done|].
  rewrite (ipt_rule_congr E1 E2 chain fam
             (dns_list E1 fam) (dns_list E2 fam) r); try done.
  - by rewrite IH.
  - unfold dns_list. by rewrite Hdns.
Qed.

(** What the modern translation reads of the environment: the resolver
    answers, the nameservers in their order, and the order in which the
    interpreter iterates a set. *)
Lemma nft_prepare_rules_congr (E1 E2 : env) (chain : string)
    (rules : list rule) (fam : family) :
  dns_addresses E1 fam = dns_addresses E2 fam →
  (∀ h, getaddrinfo E1 fam h = getaddrinfo E2 fam h) →
  (∀ s, set_iter E1 s = set_iter E2 s) →
  Nftables.prepare_rules E1 chain rules fam
  = Nftables.prepare_rules E2 chain rules fam.
Proof.
  intros Hdns Hg Hs.
  unfold Nftables.prepare_rules, Nftables.nft_rules, dns_list.
  rewrite Hdns. f_equal.
  induction rules as [|r rules IH]; simpl; [done|].
  rewrite IH. f_equal.
  unfold Nftables.nft_rule.
  assert (Nftables.sel_dst E1 fam r = Nftables.sel_dst E2 fam r) as ->; [|done].
  unfold Nftables.sel_dst, resolve. repeat case_match; try done.
  all: rewrite Hg in *; simplify_eq/=; by rewrite ?Hs.
Qed.

(** Every list the legacy emission loops go through is sorted. *)
Lemma iterable_sorted (E : env) (c : pycoll) :
  ∃ l, Iptables.iterable E (Some c) = Some <$> l
       ∧ Sorted String.le l ∧ l ≡ₚ py_iter E c.
Proof.
  exists (Py.sorted (py_iter E c)). split; [done|]. split.
  - apply Sorted_merge_sort, _.
  - apply merge_sort_Permutation.
Qed.

(** C4: two runs of the preparation that get the same resolver results
    (nameservers and [getaddrinfo] answers) under the same interpreter
    emit the same program, on both backends, whatever else differs
    between the runs; the legacy program, being emitted in sorted order,
    is moreover the same under any admissible set order and any order
    of the same nameservers and addresses. *)
Theorem prepare_rules_deterministic (E1 E2 : env) (chain : string)
    (rules : list rule) (fam : family) :
  (dns_addresses E1 fam = dns_addresses E2 fam →
   (∀ h, getaddrinfo E1 fam h = getaddrinfo E2 fam h) →
   (∀ s, set_iter E1 s = set_iter E2 s) →
   Iptables.prepare_rules E1 chain rules fam
   = Iptables.prepare_rules E2 chain rules fam
   ∧ Nftables.prepare_rules E1 chain rules fam
     = Nftables.prepare_rules E2 chain rules fam)
  ∧ (set_iter_ok E1 → set_iter_ok E2 →
     dns_addresses E1 fam ≡ₚ dns_addresses E2 fam →
     (∀ h, resolve E1 fam h = resolve E2 fam h) →
     Iptables.prepare_rules E1 chain rules fam
     = Iptables.prepare_rules E2 chain rules fam)
  ∧ (∀ c, ∃ l, Iptables.iterable E1 (Some c) = Some <$> l
               ∧ Sorted String.le l ∧ l ≡ₚ py_iter E1 c).
Proof.
  split; [|split].
  - intros Hdns Hg Hs. split.
    + apply ipt_prepare_rules_congr.
      * intros [[l|s]|]; simpl; try done. by rewrite Hs.
      * by rewrite Hdns.
      * intros h. unfold resolve. by rewrite Hg.
    + by apply nft_prepare_rules_congr.
  - intros H1 H2 Hdns Hres. apply ipt_prepare_rules_congr; try done.
    intros c. by apply iterable_indep.
  - apply iterable_sorted.
Qed.

(** A host with two addresses prepared in two runs that differ in the
    store and in what the tools accept; a DNS rule prepared with the
    nameservers in either order. *)
Lemma prepare_rules_deterministic_witness :
  Iptables.prepare_rules two_hosts_env "qbs-10-137-0-5" dsthost_rules F4
  = Iptables.prepare_rules two_hosts_offline_env "qbs-10-137-0-5"
      dsthost_rules F4
  ∧ Nftables.prepare_rules two_hosts_env "qbs-10-137-0-5" dsthost_rules F4
    = Nftables.prepare_rules two_hosts_offline_env "qbs-10-137-0-5"
        dsthost_rules F4
  ∧ Nftables.prepare_rules two_hosts_env "qbs-10-137-0-5" dsthost_rules F4
    = Ok (Nftables.nft_text "qbs-10-137-0-5" F4
            [" ip daddr { 1.1.1.1/32, 8.8.8.8/32 } accept"; " drop"])
  ∧ Iptables.prepare_rules dns_env "qbs-10-137-0-5" [dns_rule] F4
    = Iptables.prepare_rules dns_env_swapped "qbs-10-137-0-5" [dns_rule] F4.
Proof.
  destruct (proj1 (prepare_rules_deterministic two_hosts_env
                     two_hosts_offline_env "qbs-10-137-0-5" dsthost_rules F4)
              ltac:(reflexivity) ltac:(reflexivity) ltac:(reflexivity))
    as [Hi Hn].
  split; [exact Hi|]. split; [exact Hn|].
  split; [vm_compute; reflexivity|].
  apply (proj1 (proj2 (prepare_rules_deterministic dns_env dns_env_swapped
                         "qbs-10-137-0-5" [dns_rule] F4))).
  - apply plain_set_iter_ok.
  - apply plain_set_iter_ok.
  - simpl. apply Permutation_swap.
  - reflexivity.
Defined.

(** ** The remaining scenarios of the specification *)

(** Scenario 3: ICMP for an IPv6 address. *)
Example scenario3_program (E : env) :
  family_of "fd00::1" = F6
  ∧ Iptables.prepare_rules E (Iptables.chain_for_addr "fd00::1")
      [ {[ "action" := "accept"; "proto" := "icmp"; "icmptype" := "128" ]};
        {[ "action" := "drop" ]} ] F6
    = Ok ("*filter" +:+ Py.nl
          +:+ "-A qbs-fd00--1 -p icmpv6 --icmp-type 128 -j ACCEPT" +:+ Py.nl
          +:+ "-A qbs-fd00--1 -j DROP" +:+ Py.nl
          +:+ "COMMIT" +:+ Py.nl).
Proof. split; vm_compute; reflexivity. Qed.

(** Scenario 4: an IPv4 destination. *)
Example scenario4_program (E : env) :
  Iptables.prepare_rules E "qbs-10-137-0-5"
    [ {[ "action" := "accept"; "dst4" := "192.0.2.0/24" ]};
      {[ "action" := "drop" ]} ] F4
  = Ok ("*filter" +:+ Py.nl
        +:+ "-A qbs-10-137-0-5 -d 192.0.2.0/24 -j ACCEPT" +:+ Py.nl
        +:+ "-A qbs-10-137-0-5 -j DROP" +:+ Py.nl
        +:+ "COMMIT" +:+ Py.nl).
Proof. vm_compute. reflexivity. Qed.

(** Scenario 5: the rule set does not parse, the fallback is installed
    and the failure is logged. *)
Example scenario5_fallback :
  let run := handle_addr scenario5_env "10.137.0.5" (Worker ipt_initial []) in
  run.1 = Ok ()
  ∧ errlog run.2 = [FailedToParse "10.137.0.5"]
  ∧ Iptables.kernel_chain (backend run.2) "10.137.0.5"
    = Some ["-A qbs-10-137-0-5 -j DROP" +:+ Py.nl].
Proof. repeat split; vm_compute; reflexivity. Qed.

(** Scenario 7: a second application leaves no rule of the first. *)
Example scenario7_no_residue :
  let E := plain_env [] [] (fun _ => None) in
  let st1 := (Iptables.apply_rules E "10.137.0.5" scenario1_rules
                ipt_initial).2 in
  let st2 := (Iptables.apply_rules E "10.137.0.5"
                [ {[ "action" := "accept" ]} ] st1).2 in
  Iptables.kernel_chain st2 "10.137.0.5"
  = Some ["-A qbs-10-137-0-5 -j ACCEPT" +:+ Py.nl].
Proof. vm_compute. reflexivity. Qed.
